(** * confluent.data.transformers: a shallow embedding and its properties

    The development follows [src/confluent/data/transformers.py]:

    - Python values as they come out of [json.loads] ([value]), a [dict]
      as an insertion-ordered association list;
    - exceptions as a sum type ([result]), in-place mutation of the
      caller's record as explicit state passing;
    - [_clean_bigquery_keys], [transform_usage_metrics_record],
      [transform_usage_metrics] and [Transformer] ([__init__],
      [_transform_file], the sequential run over the data files) over a
      small model of the file system. *)

From Stdlib Require Import ZArith QArith Qround Ascii String List Lia Bool.
From Stdlib Require Import DecimalString SpecFloat.
From stdpp Require Import gmap strings list fin_maps.

Set Warnings "-register-all".

Local Open Scope Z_scope.
Local Open Scope string_scope.

(** ** Python values *)

(** A JSON document as [json.loads] builds it.  [VInt] is Python's
    unbounded [int]; [VFloat q] is a finite [float], carried as the
    rational it denotes; a [dict] keeps its insertion order. *)
Inductive value : Type :=
  | VNone
  | VBool (b : bool)
  | VInt (z : Z)
  | VFloat (q : Q)
  | VStr (s : string)
  | VList (l : list value)
  | VDict (d : list (string * value)).

Abbreviation dict := (list (string * value)).

(** Exceptions raised by the modelled code. *)
Inductive exn : Type :=
  | KeyError
  | TypeError
  | ValueError
  | AttributeError
  | OverflowError
  | OSError
  | KeyboardInterrupt
  | SystemExit.

(** [isinstance(e, Exception)]: [KeyboardInterrupt] and [SystemExit]
    derive from [BaseException] only. *)
Definition is_Exception (e : exn) : bool :=
  match e with
  | KeyboardInterrupt | SystemExit => false
  | _ => true
  end.

Inductive result (A : Type) : Type :=
  | Ok (a : A)
  | Raise (e : exn).
Arguments Ok {A} a.
Arguments Raise {A} e.

Definition bind {A B} (r : result A) (k : A -> result B) : result B :=
  match r with
  | Ok a => k a
  | Raise e => Raise e
  end.

Declare Scope py_scope.
Delimit Scope py_scope with py.
Notation "x <- c ;; k" := (bind c (fun x => k))
  (at level 100, c at next level, right associativity) : py_scope.

(** ** [dict] operations *)

Module Dict.

(** [d.get(k)] / [k in d]; the first binding wins, a [dict] has one. *)
Fixpoint get (d : dict) (k : string) : option value :=
  match d with
  | [] => None
  | (k', v) :: d' => if String.eqb k' k then Some v else get d' k
  end.

(** [d[k]]: [KeyError] when the key is missing. *)
Definition getitem (d : dict) (k : string) : result value :=
  match get d k with
  | Some v => Ok v
  | None => Raise KeyError
  end.

(** [d[k] = v]: an existing key keeps its position, a new key goes last. *)
Fixpoint set (d : dict) (k : string) (v : value) : dict :=
  match d with
  | [] => [(k, v)]
  | (k', v') :: d' =>
      if String.eqb k' k then (k', v) :: d' else (k', v') :: set d' k v
  end.

(** [d.pop(k, None)]: the key is removed when present, never an error. *)
Definition pop (d : dict) (k : string) : dict :=
  List.filter (fun kv => negb (String.eqb (fst kv) k)) d.

Definition keys (d : dict) : list string := List.map fst d.

(** Keys are unique in a Python [dict]. *)
Definition wf (d : dict) : Prop := NoDup (keys d).

End Dict.

(** ** Key sanitisation: [INVALID_KEY_CHARS_RE.sub('_', key)] *)

(** The character class [[a-zA-Z0-9_]]. *)
Definition valid_key_char (c : ascii) : bool :=
  let n := N_of_ascii c in
  ((97 <=? n) && (n <=? 122) || (65 <=? n) && (n <=? 90)
   || (48 <=? n) && (n <=? 57) || (n =? 95))%N.

(** [INVALID_KEY_CHARS_RE = re.compile('[^a-zA-Z0-9_]')] and its
    [.sub('_', key)]: every character outside the class becomes ["_"],
    the others stay.  A character of the model is one code point below
    256. *)
Fixpoint INVALID_KEY_CHARS_RE_sub (key : string) : string :=
  match key with
  | EmptyString => EmptyString
  | String c rest =>
      String (if valid_key_char c then c else "_"%char)
             (INVALID_KEY_CHARS_RE_sub rest)
  end.

(** ** Field sets *)

(** [select_fields] and [exclude_fields] are [None] or a [set] of strings. *)
Abbreviation fields := (option (gset string)).

(** Truth value of [None] / a [set]: only a non-empty set is true. *)
Definition truthy_fields (fs : fields) : bool :=
  match fs with
  | Some s => negb (bool_decide (s = ∅))
  | None => false
  end.

(** [x in fs], evaluated only where [fs] is true. *)
Definition in_fields (x : string) (fs : fields) : bool :=
  match fs with
  | Some s => bool_decide (x ∈ s)
  | None => false
  end.

(** Truth value of [_parent_key]: [None] and [''] are false. *)
Definition truthy_str (s : option string) : option string :=
  match s with
  | Some EmptyString | None => None
  | Some p => Some p
  end.

(** ** [_clean_bigquery_keys] *)

(** [f'{_parent_key}.{key}' if _parent_key else key] *)
Definition full_key_of (_parent_key : option string) (key : string) : string :=
  match truthy_str _parent_key with
  | Some p => p ++ "." ++ key
  | None => key
  end.

(** The test guarding [continue]. *)
Definition skipped (select_fields exclude_fields : fields) (full_key : string)
  : bool :=
  truthy_fields select_fields && negb (in_fields full_key select_fields)
  || truthy_fields exclude_fields && in_fields full_key exclude_fields.

(** The body of [for key, value in record.items()], threading
    [clean_data]; [recurse] is the recursive call on a nested [dict].
    Only a value whose type is [dict] is entered: a list is stored as it
    is. *)
Definition clean_loop (recurse : option string -> value -> value)
    (select_fields exclude_fields : fields) (_parent_key : option string)
  : dict -> dict -> dict :=
  fix loop (items : dict) (clean_data : dict) {struct items} : dict :=
    match items with
    | [] => clean_data
    | (key, value) :: rest =>
        let full_key := full_key_of _parent_key key in
        let key := INVALID_KEY_CHARS_RE_sub key in
        if skipped select_fields exclude_fields full_key
        then loop rest clean_data
        else
          let value :=
            match value with
            | VDict _ => recurse (Some full_key) value
            | _ => value
            end in
          loop rest (Dict.set clean_data key value)
    end.

Fixpoint clean_value (select_fields exclude_fields : fields)
    (_parent_key : option string) (v : value) {struct v} : value :=
  match v with
  | VDict record =>
      VDict (clean_loop (clean_value select_fields exclude_fields)
                        select_fields exclude_fields _parent_key record [])
  | _ => v
  end.

Definition _clean_bigquery_keys (record : dict)
    (select_fields exclude_fields : fields) (_parent_key : option string)
  : dict :=
  clean_loop (clean_value select_fields exclude_fields)
             select_fields exclude_fields _parent_key record [].

(** ** Numbers *)

(** Arithmetic on [float] is carried out on the rationals the floats
    denote.  For an [int] below 2^45 in absolute value the double
    precision evaluation of [int(t / 60 + 0.5)] gives the same integer:
    the exact value [(t + 30) / 60] is an integer, where both operations
    are exact, or is at least 1/60 away from one.  [Binary64] below
    evaluates the expression in double precision, and the two are
    compared on sample values.  Overflow of a float and the rounding of
    the last bit of a [float] read from the file are outside the model. *)

(** [x / delta_unit] on a value: an [int], a [bool] (an [int] in Python)
    or a [float] divides, anything else is a [TypeError]. *)
Definition py_truediv (x : value) (d : Z) : result Q :=
  match x with
  | VInt z => Ok (inject_Z z / inject_Z d)%Q
  | VBool b => Ok (inject_Z (Z.b2z b) / inject_Z d)%Q
  | VFloat q => Ok (q / inject_Z d)%Q
  | _ => Raise TypeError
  end.

(** [int(x)] on a float: truncation towards zero. *)
Definition int_of_float (q : Q) : Z := Z.quot (Qnum q) (Zpos (Qden q)).

(** The white space [int] strips from a string. *)
Definition is_space (c : ascii) : bool :=
  let n := N_of_ascii c in
  ((9 <=? n) && (n <=? 13) || (n =? 32) || (n =? 133) || (n =? 160))%N.

Definition is_digit (c : ascii) : bool :=
  let n := N_of_ascii c in ((48 <=? n) && (n <=? 57))%N.

Fixpoint lstrip_space (s : list ascii) : list ascii :=
  match s with
  | c :: r => if is_space c then lstrip_space r else s
  | [] => []
  end.

Definition strip_space (s : list ascii) : list ascii :=
  rev (lstrip_space (rev (lstrip_space s))).

(** Digits with single underscores between them. *)
Fixpoint parse_digits (s : list ascii) (acc : Z) (after_digit : bool)
  : option Z :=
  match s with
  | [] => if after_digit then Some acc else None
  | c :: r =>
      if is_digit c
      then parse_digits r (10 * acc + (Z.of_N (N_of_ascii c) - 48)) true
      else if Ascii.eqb c "_" && after_digit
           then match r with
                | [] => None
                | _ => parse_digits r acc false
                end
           else None
  end.

(** [int(s)] on a string, base 10: surrounding white space, a sign, and
    digits. *)
Definition int_of_str (s : string) : option Z :=
  match strip_space (list_ascii_of_string s) with
  | c :: r =>
      if Ascii.eqb c "-" then Z.opp <$> parse_digits r 0 false
      else if Ascii.eqb c "+" then parse_digits r 0 false
      else parse_digits (c :: r) 0 false
  | [] => None
  end.

(** The same rounding in IEEE double precision, to compare with: the
    [int] converted exactly, divided by 60 and added to 0.5 with rounding
    to nearest even, then truncated. *)
Module Binary64.

Definition prec : Z := 53.
Definition emax : Z := 1024.

Definition of_int (z : Z) : spec_float := binary_normalize prec emax z 0 false.

Definition half : spec_float := binary_normalize prec emax 1 (-1) false.

Definition to_int (f : spec_float) : option Z :=
  match f with
  | S754_zero _ => Some 0
  | S754_finite s m e =>
      let a := if (0 <=? e)%Z then Z.pos m * 2 ^ e else Z.pos m / 2 ^ (- e) in
      Some (if s then - a else a)
  | _ => None
  end.

(** [int(t / 60 + 0.5)] for an [int] below 2^53. *)
Definition int_round (t : Z) : option Z :=
  to_int (SFadd prec emax (SFdiv prec emax (of_int t) (of_int 60)) half).

End Binary64.

(** [int(x)] on a value. *)
Definition py_int (x : value) : result Z :=
  match x with
  | VInt z => Ok z
  | VBool b => Ok (Z.b2z b)
  | VFloat q => Ok (int_of_float q)
  | VStr s => match int_of_str s with
              | Some z => Ok z
              | None => Raise ValueError
              end
  | _ => Raise TypeError
  end.

(** [x[k]] with a string subscript: only a [dict] answers. *)
Definition py_getitem (x : value) (k : string) : result value :=
  match x with
  | VDict d => Dict.getitem d k
  | _ => Raise TypeError
  end.

(** ** [datetime] *)

Record datetime : Type := mk_datetime {
  year : Z; month : Z; day : Z; hour : Z; minute : Z; second : Z
}.

(** Proleptic Gregorian date of a day count from 1970-01-01. *)
Definition civil_from_days (days : Z) : Z * Z * Z :=
  let z := days + 719468 in
  let era := z / 146097 in
  let doe := z - era * 146097 in
  let yoe := (doe - doe / 1460 + doe / 36524 - doe / 146096) / 365 in
  let doy := doe - (365 * yoe + yoe / 4 - yoe / 100) in
  let mp := (5 * doy + 2) / 153 in
  let d := doy - (153 * mp + 2) / 5 + 1 in
  let m := if (mp <? 10)%Z then mp + 3 else mp - 9 in
  ((if (m <=? 2)%Z then yoe + era * 400 + 1 else yoe + era * 400), m, d).

Definition datetime_of_seconds (secs : Z) : datetime :=
  let '(y, m, d) := civil_from_days (secs / 86400) in
  let sod := secs mod 86400 in
  mk_datetime y m d (sod / 3600) (sod mod 3600 / 60) (sod mod 60).

Definition MINYEAR : Z := 1.
Definition MAXYEAR : Z := 9999.

Definition year_in_range (dt : datetime) : bool :=
  ((MINYEAR <=? year dt) && (year dt <=? MAXYEAR))%Z.

(** [datetime.fromtimestamp(ts, tz)]: the UTC date is built first
    ([ValueError] when its year is out of range), then [tz.fromutc] adds
    the zone's offset ([OverflowError] when the sum leaves the range).
    The zone is given by its offset from UTC, in seconds, at a UTC
    instant. *)
Definition fromtimestamp (tz : Z -> Z) (ts : Z) : result datetime :=
  if negb (year_in_range (datetime_of_seconds ts)) then Raise ValueError
  else
    let local := datetime_of_seconds (ts + tz ts) in
    if negb (year_in_range local) then Raise OverflowError else Ok local.

Definition digit_of (n : Z) : ascii := ascii_of_N (Z.to_N (48 + n mod 10)).

Definition pad2 (n : Z) : string :=
  String (digit_of (n / 10)) (String (digit_of n) "").

Definition pad4 (n : Z) : string :=
  String (digit_of (n / 1000)) (String (digit_of (n / 100)) (pad2 n)).

(** [strftime('%Y-%m-%d')], for a year of four digits. *)
Definition strftime_date (dt : datetime) : string :=
  pad4 (year dt) ++ "-" ++ pad2 (month dt) ++ "-" ++ pad2 (day dt).

(** [strftime('%Y-%m-%d %H:%M:%S')] *)
Definition strftime_datetime (dt : datetime) : string :=
  strftime_date dt ++ " " ++ pad2 (hour dt) ++ ":" ++ pad2 (minute dt)
  ++ ":" ++ pad2 (second dt).

(** ** Stateful code: a state and exception monad *)

(** A computation over a mutable store [S]: the store it leaves, and the
    value it returns or the exception it raises.  An exception keeps the
    writes made before it. *)
Definition stateE (S A : Type) : Type := S -> S * result A.

Module StateE.
Section Ops.
Context {S : Type}.

Definition ret {A} (a : A) : stateE S A := fun s => (s, Ok a).

Definition bind {A B} (m : stateE S A) (k : A -> stateE S B)
  : stateE S B :=
  fun s =>
    match m s with
    | (s', Ok a) => k a s'
    | (s', Raise e) => (s', Raise e)
    end.

Definition get : stateE S S := fun s => (s, Ok s).
Definition put (s : S) : stateE S unit := fun _ => (s, Ok tt).
Definition modify (f : S -> S) : stateE S unit := fun s => (f s, Ok tt).
Definition lift {A} (r : result A) : stateE S A := fun s => (s, r).
Definition raise {A} (e : exn) : stateE S A := fun s => (s, Raise e).

(** [try: body / except <caught>: handler]; an exception outside
    [caught] propagates. *)
Definition try_except {A} (body : stateE S A) (caught : exn -> bool)
    (handler : exn -> stateE S A) : stateE S A :=
  fun s =>
    match body s with
    | (s', Raise e) => if caught e then handler e s' else (s', Raise e)
    | r => r
    end.
End Ops.
End StateE.

Declare Scope state_scope.
Delimit Scope state_scope with st.
Notation "x <- c ;; k" := (StateE.bind c (fun x => k))
  (at level 100, c at next level, right associativity) : state_scope.
Notation "c ;;; k" := (StateE.bind c (fun _ => k))
  (at level 100, right associativity) : state_scope.

(** ** [transform_usage_metrics_record] *)

Section Record_transform.

(** [pytz.timezone('US/Pacific')]: the zone's offset from UTC in
    seconds at a UTC instant, from the time zone database. *)
Variable US_Pacific : Z -> Z.

(** [int(x / delta_unit + 0.5) * delta_unit] *)
Definition round_to_unit (x : value) (delta_unit : Z) : result Z :=
  (q <- py_truediv x delta_unit ;;
   Ok (int_of_float (q + 0.5)%Q * delta_unit))%py.

(** The statements of the function in order, on the caller's [record]:
    the store is the record object, which the caller still holds. *)
Definition transform_usage_metrics_record
    (select_fields exclude_fields : fields) : stateE dict dict :=
  (StateE.modify (fun record => Dict.pop record "@timestamp") ;;;
   let delta_unit := 60 in
   record <- StateE.get ;;
   timestamp <- StateE.lift
     (t <- Dict.getitem record "timestamp" ;; round_to_unit t delta_unit)%py ;;
   StateE.modify (fun record => Dict.set record "timestamp" (VInt timestamp)) ;;;
   record <- StateE.get ;;
   delta <- StateE.lift
     (metric <- Dict.getitem record "metric" ;;
      d <- py_getitem metric "_deltaSeconds" ;;
      d <- py_int d ;;
      r <- round_to_unit (VInt d) delta_unit ;;
      Ok (Z.max r delta_unit))%py ;;
   metric <- StateE.lift (Dict.getitem record "metric") ;;
   match metric with
   | VDict metric =>
       StateE.put
         (Dict.set record "metric"
                   (VDict (Dict.set metric "_deltaSeconds" (VInt delta))))
   | _ => StateE.raise TypeError
   end ;;;
   record <- StateE.get ;;
   timestamp <- StateE.lift
     (t <- Dict.getitem record "timestamp" ;;
      match t with VInt t => Ok t | _ => Raise TypeError end)%py ;;
   pacific_time <- StateE.lift (fromtimestamp US_Pacific timestamp) ;;
   StateE.modify (fun record =>
     Dict.set record "datetime_pt" (VStr (strftime_datetime pacific_time))) ;;;
   StateE.modify (fun record =>
     Dict.set record "date_pt" (VStr (strftime_date pacific_time))) ;;;
   record <- StateE.get ;;
   StateE.ret (_clean_bigquery_keys record select_fields exclude_fields None)
  )%st.

End Record_transform.

(** ** Paths: [os.path] on POSIX *)

Fixpoint string_drop (n : nat) (s : string) : string :=
  match n, s with
  | O, _ => s
  | S n', String _ r => string_drop n' r
  | S _, EmptyString => EmptyString
  end.

Definition startswith (s p : string) : bool := String.prefix p s.

Fixpoint endswith_slash (s : string) : bool :=
  match s with
  | EmptyString => false
  | String c EmptyString => Ascii.eqb c "/"
  | String _ r => endswith_slash r
  end.

(** [p[:i], p[i:]] for [i = p.rfind('/') + 1]. *)
Fixpoint split_last_slash (p : string) : string * string :=
  match p with
  | EmptyString => (EmptyString, EmptyString)
  | String c r =>
      let '(h, t) := split_last_slash r in
      match h with
      | EmptyString =>
          if Ascii.eqb c "/" then (String c EmptyString, t)
          else (EmptyString, String c t)
      | _ => (String c h, t)
      end
  end.

Fixpoint all_slashes (s : string) : bool :=
  match s with
  | EmptyString => true
  | String c r => Ascii.eqb c "/" && all_slashes r
  end.

(** [s[:-1]] *)
Fixpoint drop_last (s : string) : string :=
  match s with
  | EmptyString => EmptyString
  | String c EmptyString => EmptyString
  | String c r => String c (drop_last r)
  end.

(** [s.rstrip('/')] *)
Fixpoint rstrip_slash (s : string) : string :=
  match s with
  | EmptyString => EmptyString
  | String c r =>
      match rstrip_slash r with
      | EmptyString => if Ascii.eqb c "/" then EmptyString else String c EmptyString
      | r' => String c r'
      end
  end.

Definition os_path_dirname (p : string) : string :=
  let head := fst (split_last_slash p) in
  if negb (String.eqb head "") && negb (all_slashes head)
  then rstrip_slash head else head.

Definition os_path_basename (p : string) : string := snd (split_last_slash p).

Definition os_path_join (a b : string) : string :=
  if startswith b "/" then b
  else if String.eqb a "" || endswith_slash a then a ++ b
  else a ++ "/" ++ b.

(** [needle in s] on strings. *)
Definition str_contains (needle s : string) : bool :=
  match String.index 0 needle s with
  | Some _ => true
  | None => String.eqb needle ""
  end.

(** The directories [os.makedirs(name)] needs: [name] and every prefix of
    it that ends before a ["/"]. *)
Fixpoint path_prefixes (pre rest : string) : list string :=
  match rest with
  | EmptyString => if String.eqb pre "" then [] else [pre]
  | String c r =>
      ((if Ascii.eqb c "/" && negb (String.eqb pre "") && negb (endswith_slash pre)
        then [pre] else [])
       ++ path_prefixes (pre ++ String c EmptyString) r)%list
  end.

(** ** Text *)

(** [str(n)] for an [int]. *)
Definition str_of_int (n : Z) : string := NilZero.string_of_int (Z.to_int n).

(** The text between double quotes, as an f-string lays it out. *)
Definition quoted (s : string) : string :=
  String (ascii_of_N 34) s ++ String (ascii_of_N 34) EmptyString.

(** [c * n] for a one-character string. *)
Fixpoint string_repeat (c : string) (n : nat) : string :=
  match n with
  | O => EmptyString
  | S n' => c ++ string_repeat c n'
  end.

(** [sorted(xs)] on strings: insertion into a sorted list. *)
Fixpoint insert_sorted (x : string) (xs : list string) : list string :=
  match xs with
  | [] => [x]
  | y :: ys => if String.leb x y then x :: y :: ys else y :: insert_sorted x ys
  end.

Definition sorted (xs : list string) : list string :=
  List.fold_right insert_sorted [] xs.

(** ** The file system and standard output *)

(** One line of a gzip-compressed file of JSON lines: the value it
    decodes to, or [None] for a line [json.loads] rejects. *)
Abbreviation line := (option value).

Record world : Type := mk_world {
  files : gmap string (list line);
  dirs : gset string;
  stdout : list string
}.

Definition set_files (f : gmap string (list line) -> gmap string (list line))
    (w : world) : world :=
  mk_world (f (files w)) (dirs w) (stdout w).

(** [print(...)] *)
Definition print (msg : string) : stateE world unit :=
  StateE.modify (fun w => mk_world (files w) (dirs w) (stdout w ++ [msg])%list).

Definition is_file (w : world) (p : string) : bool :=
  bool_decide (is_Some (files w !! p)).

Definition is_dir (w : world) (p : string) : bool := bool_decide (p ∈ dirs w).

(** [os.path.exists(p)] *)
Definition os_path_exists (w : world) (p : string) : bool :=
  is_file w p || is_dir w p.

(** [os.makedirs(name, exist_ok=True)]: every missing directory on the way
    is created; a regular file on the way, or an empty [name], is an
    [OSError]. *)
Definition os_makedirs (name : string) : stateE world unit :=
  fun w =>
    let needed := path_prefixes "" name in
    if String.eqb name "" || existsb (is_file w) needed
    then (w, Raise OSError)
    else (mk_world (files w) (dirs w ∪ list_to_set needed) (stdout w), Ok tt).

(** [os.unlink(p)]: removes a regular file; [OSError] for a missing path
    or a directory. *)
Definition os_unlink (p : string) : stateE world unit :=
  fun w =>
    if is_file w p then (set_files (delete p) w, Ok tt) else (w, Raise OSError).

(** [os.rename(src, dst)]: [dst] is replaced in one step; [OSError] when
    [src] is missing or [dst] is a directory. *)
Definition os_rename (src dst : string) : stateE world unit :=
  fun w =>
    match files w !! src with
    | Some content =>
        if is_dir w dst then (w, Raise OSError)
        else (set_files (fun fs => <[dst := content]> (delete src fs)) w, Ok tt)
    | None => (w, Raise OSError)
    end.

(** [gzip.open(p, 'wt')]: the file is created or truncated; [OSError]
    for a directory or a missing parent directory. *)
Definition gzip_open_wt (p : string) : stateE world unit :=
  fun w =>
    let parent := os_path_dirname p in
    if is_dir w p || negb (String.eqb parent "" || is_dir w parent)
    then (w, Raise OSError)
    else (set_files <[p := []]> w, Ok tt).

(** [fp.write(text)] on the file opened at [p]. *)
Definition fp_write (p : string) (l : line) : stateE world unit :=
  StateE.modify (set_files (fun fs => <[p := (default [] (fs !! p) ++ [l])%list]> fs)).

(** [gzip.open(p, 'rt')], read to the end: the lines of the file. *)
Definition gzip_open_rt (p : string) : stateE world (list line) :=
  fun w =>
    match files w !! p with
    | Some content => (w, Ok content)
    | None => (w, Raise OSError)
    end.

(** [json.loads(line)]: [JSONDecodeError] is a [ValueError]. *)
Definition json_loads (l : line) : result value :=
  match l with
  | Some v => Ok v
  | None => Raise ValueError
  end.

(** [for x in xs: body(x)] *)
Fixpoint for_each {S A} (xs : list A) (body : A -> stateE S unit)
  : stateE S unit :=
  match xs with
  | [] => StateE.ret tt
  | x :: xs' => (body x ;;; for_each xs' body)%st
  end.
(** ** [transform_usage_metrics] *)

Section File_transform.

Variable US_Pacific : Z -> Z.

(** [transform_usage_metrics_record(record, ...)] as called on what
    [json.loads] returned: [record.pop('@timestamp', None)] is an
    attribute error on a scalar and a type error on a list.  The record
    object is local to the loop body. *)
Definition call_record_transform (record : value)
    (select_fields exclude_fields : fields) : result dict :=
  match record with
  | VDict record =>
      snd (transform_usage_metrics_record US_Pacific
             select_fields exclude_fields record)
  | VList _ => Raise TypeError
  | _ => Raise AttributeError
  end.

Definition transform_usage_metrics (input_file output_file : string)
    (select_fields exclude_fields : fields) : stateE world unit :=
  (gzip_open_wt output_file ;;;
   lines <- gzip_open_rt input_file ;;
   for_each lines (fun line =>
     record <- StateE.lift (json_loads line) ;;
     clean_record <- StateE.lift
       (call_record_transform record select_fields exclude_fields) ;;
     fp_write output_file (Some (VDict clean_record))))%st.

End File_transform.

(** ** [Transformer] *)

(** [f.lstrip('-')] *)
Fixpoint lstrip_minus (f : string) : string :=
  match f with
  | String c r => if Ascii.eqb c "-" then lstrip_minus r else f
  | EmptyString => EmptyString
  end.

Record Transformer : Type := mk_Transformer {
  _transform : string -> string -> fields -> fields -> stateE world unit;
  source_dir : string;
  sink_dir : string;
  path_contains : option string;
  parallel_processes : Z;
  select_fields : fields;
  exclude_fields : fields
}.

(** [Transformer.__init__] *)
Definition Transformer_init
    (transform : string -> string -> fields -> fields -> stateE world unit)
    (source_dir sink_dir : string) (path_contains : option string)
    (select_fields : fields) (parallel_processes : Z) : Transformer :=
  if truthy_fields select_fields then
    let all := default ∅ select_fields in
    let fields_with_exclude_prefix : gset string :=
      filter (fun f => startswith f "-" = true) all in
    mk_Transformer transform source_dir sink_dir path_contains
      parallel_processes
      (Some (all ∖ fields_with_exclude_prefix))
      (Some (set_map lstrip_minus fields_with_exclude_prefix))
  else
    mk_Transformer transform source_dir sink_dir path_contains
      parallel_processes select_fields None.

Section Transformer_methods.

Variable self : Transformer.

Definition output_file_of (input_file : string) : string :=
  os_path_join (sink_dir self)
    (string_drop (String.length (source_dir self) + 1) input_file).

Definition temp_file_of (output_file : string) : string :=
  os_path_join (os_path_dirname output_file)
               ("." ++ os_path_basename output_file).

(** [except (KeyboardInterrupt, Exception)] *)
Definition caught_by_worker (e : exn) : bool :=
  match e with
  | KeyboardInterrupt => true
  | _ => is_Exception e
  end.

(** The body of [try:]. *)
Definition try_block (input_file temp_file output_file : string)
  : stateE world unit :=
  (os_makedirs (os_path_dirname temp_file) ;;;
   _transform self input_file temp_file
              (select_fields self) (exclude_fields self) ;;;
   os_rename temp_file output_file)%st.

(** The body of [except (KeyboardInterrupt, Exception) as e:]; the
    message is printed for a [KeyboardInterrupt] only, and the second
    [os.unlink] is not reached when the first one raises. *)
Definition except_block (input_file temp_file output_file : string)
    (e : exn) : stateE world unit :=
  (match e with
   | KeyboardInterrupt =>
       print ("ERROR: Could not transform " ++ input_file ++ ": ")
   | _ => StateE.ret tt
   end ;;;
   StateE.try_except
     (os_unlink temp_file ;;; os_unlink output_file)
     is_Exception
     (fun _ => StateE.ret tt))%st.

(** [Transformer._transform_file]; the method returns [None] on every
    path. *)
Definition _transform_file (input_file : string) : stateE world unit :=
  let output_file := output_file_of input_file in
  (w <- StateE.get ;;
   if os_path_exists w output_file then
     print ("Skipping transform as output file already exists: "
            ++ output_file)
   else
     print ("Transforming " ++ input_file) ;;;
     let temp_file := temp_file_of output_file in
     StateE.try_except
       (try_block input_file temp_file output_file)
       caught_by_worker
       (except_block input_file temp_file output_file))%st.

(** The directory [os.walk] reports for a file below [self.source_dir]:
    the part before the file name, without the separator that
    [os.path.join] added. *)
Definition dirpath_of (f : string) : string :=
  let head := fst (split_last_slash f) in
  if endswith_slash (source_dir self) && String.eqb head (source_dir self)
  then head else drop_last head.

(** The data files: the files [os.walk(self.source_dir)] reaches, each
    joined with its directory, with the filter on the directory path.
    The order is the one of the listing, which nothing fixes. *)
Definition data_files_of (w : world) : list string :=
  List.filter
    (fun f =>
       negb (String.eqb (source_dir self) "")
       && startswith f (if endswith_slash (source_dir self)
                        then source_dir self else source_dir self ++ "/")
       && match path_contains self with
          | Some sub => String.eqb sub "" || str_contains sub (dirpath_of f)
          | None => true
          end)
    (elements (dom (files w))).

(** [process_pool.map(self._transform_file, data_files)], one file
    after the other in the order of the list: one of the schedules of
    the pool. *)
Definition pool_map (data_files : list string) : stateE world unit :=
  for_each data_files _transform_file.

Definition print_fields (label : string) (fs : fields) : stateE world unit :=
  if truthy_fields fs
  then print (label ++ " "
              ++ String.concat ", " (sorted (elements (default ∅ fs))))
  else StateE.ret tt.

(** [Transformer.transform] *)
Definition transform : stateE world unit :=
  (print ("Transforming data files from " ++ quoted (source_dir self)
          ++ " and writing them to " ++ quoted (sink_dir self) ++ " using "
          ++ str_of_int (parallel_processes self) ++ " parallel processes") ;;;
   print_fields "Only extracting these fields:" (select_fields self) ;;;
   print_fields "Excluding these fields:" (exclude_fields self) ;;;
   w <- StateE.get ;;
   let data_files := data_files_of w in
   match data_files with
   | _ :: _ =>
       print (string_repeat "-" 80) ;;;
       StateE.try_except
         (pool_map data_files ;;;
          print ("Transformed "
                 ++ str_of_int (Z.of_nat (List.length data_files))
                 ++ " data file(s)"))
         (fun e => match e with KeyboardInterrupt => true | _ => false end)
         (fun e => StateE.raise e)
   | [] =>
       let match_criteria :=
         match path_contains self with
         | Some sub =>
             if String.eqb sub "" then "" else "matching " ++ quoted sub
         | None => ""
         end in
       print ("No data files found in " ++ quoted (source_dir self) ++ " dir "
              ++ match_criteria)
   end)%st.

End Transformer_methods.

(** ** Equality and paths of values *)

Definition num_of (v : value) : option Q :=
  match v with
  | VInt z => Some (inject_Z z)
  | VBool b => Some (inject_Z (Z.b2z b))
  | VFloat q => Some q
  | _ => None
  end.

(** [a == b] on values: numbers by value, a [dict] whatever the order of
    its keys, a list item by item. *)
Fixpoint py_eq (a b : value) {struct a} : bool :=
  match a, b with
  | VNone, VNone => true
  | VStr s, VStr s' => String.eqb s s'
  | VList l, VList l' =>
      (fix go (l l' : list value) {struct l} : bool :=
         match l, l' with
         | [], [] => true
         | x :: r, x' :: r' => py_eq x x' && go r r'
         | _, _ => false
         end) l l'
  | VDict d, VDict d' =>
      Nat.eqb (List.length d) (List.length d')
      && (fix go (d : dict) {struct d} : bool :=
            match d with
            | [] => true
            | (k, v) :: r =>
                match Dict.get d' k with
                | Some v' => py_eq v v'
                | None => false
                end && go r
            end) d
  | _, _ =>
      match num_of a, num_of b with
      | Some x, Some y => Qeq_bool x y
      | _, _ => false
      end
  end.

(** The node a dotted path names: [record[k1][k2]...]. *)
Fixpoint lookup_path (v : value) (path : list string) : option value :=
  match path with
  | [] => Some v
  | k :: path' =>
      match v with
      | VDict d =>
          match Dict.get d k with
          | Some v' => lookup_path v' path'
          | None => None
          end
      | _ => None
      end
  end.

(** Every key of the value consists of [[A-Za-z0-9_]], in the [dict]
    itself and in the [dict]s nested in it as values. *)
Fixpoint valid_key (k : string) : bool :=
  match k with
  | EmptyString => true
  | String c r => valid_key_char c && valid_key r
  end.

Fixpoint keys_sanitized (v : value) : bool :=
  match v with
  | VDict d =>
      (fix go (d : dict) : bool :=
         match d with
         | [] => true
         | (k, v') :: r => valid_key k && keys_sanitized v' && go r
         end) d
  | _ => true
  end.
(** ** Fixtures *)

(** Pacific Standard Time all year: the zone of the examples, which lie
    in January 1970. *)
Definition PST : Z -> Z := fun _ => -28800.

(** The record of the end-to-end scenario. *)
Definition scenario_record : dict :=
  [("@timestamp", VStr "x"); ("timestamp", VInt 1234567);
   ("metric", VDict [("_deltaSeconds", VStr "50");
                     ("statefulset.kubernetes.io/pod-name", VStr "p")])].

(** ** Vocabulary of the statements *)

(** The entry is not skipped by the filter. *)
Definition kept (select_fields exclude_fields : fields)
    (_parent_key : option string) (key : string) : bool :=
  negb (skipped select_fields exclude_fields (full_key_of _parent_key key)).

(** The value stored for an entry that is not skipped. *)
Definition cleaned (select_fields exclude_fields : fields)
    (_parent_key : option string) (key : string) (v : value) : value :=
  clean_value select_fields exclude_fields
              (Some (full_key_of _parent_key key)) v.

(** The entries of a node that the filter keeps. *)
Definition kept_items (select_fields exclude_fields : fields)
    (_parent_key : option string) (items : dict) : dict :=
  List.filter (fun kv => kept select_fields exclude_fields _parent_key (fst kv))
              items.

(** [s] is [key] with every character outside the class replaced. *)
Inductive replaced : string -> string -> Prop :=
  | replaced_nil : replaced EmptyString EmptyString
  | replaced_valid c key s :
      valid_key_char c = true -> replaced key s ->
      replaced (String c key) (String c s)
  | replaced_invalid c key s :
      valid_key_char c = false -> replaced key s ->
      replaced (String c key) (String "_" s).

(** The reading of "at every depth" that also enters the records held
    in sequences: every key consists of [[A-Za-z0-9_]], in [dict]s nested
    as values and in [dict]s that are items of lists. *)
Fixpoint keys_sanitized_deep (v : value) : bool :=
  match v with
  | VDict d =>
      (fix go (d : dict) : bool :=
         match d with
         | [] => true
         | (k, v') :: r => valid_key k && keys_sanitized_deep v' && go r
         end) d
  | VList l =>
      (fix go (l : list value) : bool :=
         match l with
         | [] => true
         | v' :: r => keys_sanitized_deep v' && go r
         end) l
  | _ => true
  end.


(** The right-hand side of the assignment to
    [record['metric']['_deltaSeconds']]. *)
Definition rounded_delta (d : value) : result Z :=
  (n <- py_int d ;; r <- round_to_unit (VInt n) 60 ;; Ok (Z.max r 60))%py.

(** The caller's record after the four assignments of
    [transform_usage_metrics_record]. *)
Definition mutated (record : dict) (ts delta : Z) (metric : dict)
    (dt : datetime) : dict :=
  Dict.set
    (Dict.set
       (Dict.set
          (Dict.set (Dict.pop record "@timestamp") "timestamp" (VInt ts))
          "metric" (VDict (Dict.set metric "_deltaSeconds" (VInt delta))))
       "datetime_pt" (VStr (strftime_datetime dt)))
    "date_pt" (VStr (strftime_date dt)).

(** [record['timestamp']] is missing or is neither a number nor a
    [bool]: the division raises. *)
Definition timestamp_unusable (record : dict) : bool :=
  match Dict.get record "timestamp" with
  | Some (VInt _) | Some (VFloat _) | Some (VBool _) => false
  | _ => true
  end.

(** [record['metric']['_deltaSeconds']] is missing, or [int] rejects it:
    [None], a list, a [dict], or a string that is not an integer literal. *)
Definition delta_unusable (record : dict) : bool :=
  match Dict.get record "metric" with
  | Some (VDict metric) =>
      match Dict.get metric "_deltaSeconds" with
      | Some (VInt _) | Some (VFloat _) | Some (VBool _) => false
      | Some (VStr s) =>
          match int_of_str s with
          | Some _ => false
          | None => true
          end
      | _ => true
      end
  | _ => true
  end.

(** The output the scenario names, in the order the claim lists it. *)
Definition scenario_output : dict :=
  [("timestamp", VInt 1234560);
   ("datetime_pt", VStr "1970-01-14 22:56:00");
   ("date_pt", VStr "1970-01-14");
   ("metric", VDict [("_deltaSeconds", VInt 60);
                     ("statefulset_kubernetes_io_pod_name", VStr "p")])].

(** The world [w'] differs from [w] at the file [output_file] at most,
    and nothing was printed. *)
Definition same_but (output_file : string) (w w' : world) : Prop :=
  (forall p, p <> output_file -> files w' !! p = files w !! p)
  /\ stdout w' = stdout w.

(** A transform callable that writes no file but the output file it is
    given, and prints nothing. *)
Definition writes_only_output
    (transform : string -> string -> fields -> fields -> stateE world unit)
  : Prop :=
  forall input_file output_file sel exc w,
    same_but output_file w (fst (transform input_file output_file sel exc w)).

(** What the handler of [_transform_file] prints for the exception it
    caught. *)
Definition printed_on (e : exn) (input_file : string) : list string :=
  match e with
  | KeyboardInterrupt => ["ERROR: Could not transform " ++ input_file ++ ": "]
  | _ => []
  end.

(** The notice of a file being transformed. *)
Definition start_notice (input_file : string) : string :=
  "Transforming " ++ input_file.

(** The notice of a skipped file. *)
Definition skip_notice (self : Transformer) (input_file : string) : string :=
  "Skipping transform as output file already exists: "
  ++ output_file_of self input_file.

(** A job on the usage metrics transform, from [src] to [out], with no
    field spec. *)
Definition usage_job : Transformer :=
  Transformer_init (transform_usage_metrics PST) "src" "out" None None 5.

(** A record without [timestamp]. *)
Definition record_without_timestamp : dict :=
  [("metric", VDict [("_deltaSeconds", VInt 50)])].

(** A source tree with one good file. *)
Definition good_tree : world :=
  mk_world {[ "src/a/x.gz" := [Some (VDict scenario_record)] ]}
           {[ "src"; "src/a" ]} [].

(** A source tree with one file whose second record has no [timestamp]. *)
Definition bad_tree : world :=
  mk_world {[ "src/a/y.gz" := [Some (VDict scenario_record);
                               Some (VDict record_without_timestamp)] ]}
           {[ "src"; "src/a" ]} [].

(** A source tree with a good file and a file whose second line is not
    JSON. *)
Definition mixed_tree : world :=
  mk_world {[ "src/a/x.gz" := [Some (VDict scenario_record)];
              "src/a/y.gz" := [Some (VDict scenario_record); None] ]}
           {[ "src"; "src/a" ]} [].

(** A transform callable that is interrupted before it writes. *)
Definition interrupted_transform
  : string -> string -> fields -> fields -> stateE world unit :=
  fun _ _ _ _ => StateE.raise KeyboardInterrupt.

(** ** Vocabulary of the further properties *)

(** The entry [_clean_bigquery_keys] stores for an entry it keeps. *)
Definition clean_entry (select_fields exclude_fields : fields)
    (_parent_key : option string) (kv : string * value) : string * value :=
  (INVALID_KEY_CHARS_RE_sub (fst kv),
   cleaned select_fields exclude_fields _parent_key (fst kv) (snd kv)).

(** The full keys [_clean_bigquery_keys] can meet in a value: the keys of
    the record and of the records nested in it as values, each with its
    ancestors. *)
Fixpoint full_keys (_parent_key : option string) (v : value) : list string :=
  match v with
  | VDict d =>
      (fix go (d : dict) : list string :=
         match d with
         | [] => []
         | (k, v') :: r =>
             (full_key_of _parent_key k
              :: full_keys (Some (full_key_of _parent_key k)) v' ++ go r)%list
         end) d
  | _ => []
  end.

(** A value in the form [_clean_bigquery_keys] produces: in the record
    and in the records nested in it as values the keys are distinct and
    consist of [[A-Za-z0-9_]]. *)
Fixpoint clean_form (v : value) : Prop :=
  match v with
  | VDict d =>
      Dict.wf d
      /\ (fix go (d : dict) : Prop :=
            match d with
            | [] => True
            | (k, v') :: r => valid_key k = true /\ clean_form v' /\ go r
            end) d
  | _ => True
  end.

(** The string has no ["/"]: it is one path component. *)
Fixpoint no_slash (s : string) : bool :=
  match s with
  | EmptyString => true
  | String c r => negb (Ascii.eqb c "/") && no_slash r
  end.

(** What [transform_usage_metrics] writes for the lines it reads, and
    how the loop ends: the records before the first line that fails to
    decode or to transform, each transformed, and that line's exception
    when there is one. *)
Fixpoint transform_lines (US_Pacific : Z -> Z)
    (select_fields exclude_fields : fields) (lines : list line)
  : list line * result unit :=
  match lines with
  | [] => ([], Ok tt)
  | l :: rest =>
      match (record <- json_loads l ;;
             call_record_transform US_Pacific record
                                   select_fields exclude_fields)%py with
      | Ok clean_record =>
          let (written, r) :=
            transform_lines US_Pacific select_fields exclude_fields rest in
          (Some (VDict clean_record) :: written, r)
      | Raise e => ([], Raise e)
      end
  end.

(** The last line of a job that found files. *)
Definition count_notice (n : nat) : string :=
  "Transformed " ++ str_of_int (Z.of_nat n) ++ " data file(s)".

(** The world after the lines a job prints before it looks for files. *)
Definition announced (self : Transformer) (w : world) : world :=
  fst ((print ("Transforming data files from " ++ quoted (source_dir self)
               ++ " and writing them to " ++ quoted (sink_dir self) ++ " using "
               ++ str_of_int (parallel_processes self) ++ " parallel processes") ;;;
        print_fields "Only extracting these fields:" (select_fields self) ;;;
        print_fields "Excluding these fields:" (exclude_fields self))%st w).

(** * Properties *)

(** ** Induction on values through lists and dicts *)

Section Value_induction.

Variable P : value -> Prop.
Hypothesis HNone : P VNone.
Hypothesis HBool : forall b, P (VBool b).
Hypothesis HInt : forall z, P (VInt z).
Hypothesis HFloat : forall q, P (VFloat q).
Hypothesis HStr : forall s, P (VStr s).
Hypothesis HList : forall l, Forall P l -> P (VList l).
Hypothesis HDict : forall d, Forall (fun kv => P (snd kv)) d -> P (VDict d).

Fixpoint value_nested_ind (v : value) : P v :=
  match v with
  | VNone => HNone
  | VBool b => HBool b
  | VInt z => HInt z
  | VFloat q => HFloat q
  | VStr s => HStr s
  | VList l =>
      HList l
        ((fix go (l : list value) : Forall P l :=
            match l with
            | [] => @Stdlib.Lists.List.Forall_nil _ P
            | x :: r => @Stdlib.Lists.List.Forall_cons _ P x r (value_nested_ind x) (go r)
            end) l)
  | VDict d =>
      HDict d
        ((fix go (d : dict) : Forall (fun kv => P (snd kv)) d :=
            match d with
            | [] => @Stdlib.Lists.List.Forall_nil _ _
            | kv :: r =>
                @Stdlib.Lists.List.Forall_cons _ (fun kv => P (snd kv)) kv r
                  (value_nested_ind (snd kv)) (go r)
            end) d)
  end.

End Value_induction.

(** ** [dict] lemmas *)

Lemma get_set_eq d k v : Dict.get (Dict.set d k v) k = Some v.
Proof.
  induction d as [|[k' v'] d IH]; simpl.
  - by rewrite String.eqb_refl.
  - destruct (String.eqb k' k) eqn:E; simpl; rewrite E; auto.
Qed.

Lemma get_set_ne d k k' v :
  k <> k' -> Dict.get (Dict.set d k v) k' = Dict.get d k'.
Proof.
  intros Hne. induction d as [|[k0 v0] d IH]; simpl.
  - destruct (String.eqb k k') eqn:E; [apply String.eqb_eq in E; done | done].
  - destruct (String.eqb k0 k) eqn:E; simpl.
    + apply String.eqb_eq in E; subst k0.
      destruct (String.eqb k k') eqn:E'; [apply String.eqb_eq in E'; done | done].
    + by rewrite IH.
Qed.

Lemma length_set d k v :
  List.length (Dict.set d k v)
  = match Dict.get d k with
    | Some _ => List.length d
    | None => S (List.length d)
    end.
Proof.
  induction d as [|[k' v'] d IH]; simpl; [done|].
  destruct (String.eqb k' k); simpl; [done|].
  rewrite IH. by destruct (Dict.get d k).
Qed.

Lemma In_set d k v k' v' :
  In (k', v') (Dict.set d k v) -> (k' = k /\ v' = v) \/ In (k', v') d.
Proof.
  induction d as [|[k0 v0] d IH]; simpl.
  - intros [[= <- <-]|[]]. by left.
  - destruct (String.eqb k0 k) eqn:E; simpl.
    + apply String.eqb_eq in E; subst k0.
      intros [[= <- <-]|H]; [by left | by right; right].
    + intros [H|H]; [by right; left|].
      destruct (IH H) as [?|?]; [by left | by right; right].
Qed.



Lemma get_pop_eq d k : Dict.get (Dict.pop d k) k = None.
Proof.
  unfold Dict.pop. induction d as [|[k' v'] d IH]; simpl; [done|].
  destruct (String.eqb k' k) eqn:E; simpl; [done|]. by rewrite E.
Qed.

Lemma get_pop_ne d k k' :
  k <> k' -> Dict.get (Dict.pop d k) k' = Dict.get d k'.
Proof.
  intros Hne. unfold Dict.pop.
  induction d as [|[k0 v0] d IH]; simpl; [done|].
  destruct (String.eqb k0 k) eqn:E; simpl.
  - apply String.eqb_eq in E; subst k0.
    destruct (String.eqb k k') eqn:E'; [apply String.eqb_eq in E'; done | done].
  - by rewrite IH.
Qed.

(** ** [_clean_bigquery_keys] *)

Section Clean.

Variables select_fields exclude_fields : fields.

Let loop := clean_loop (clean_value select_fields exclude_fields)
                       select_fields exclude_fields.

Lemma clean_value_dict p d :
  clean_value select_fields exclude_fields p (VDict d)
  = VDict (_clean_bigquery_keys d select_fields exclude_fields p).
Proof. reflexivity. Qed.

Lemma loop_cons p key v rest acc :
  loop p ((key, v) :: rest) acc
  = if kept select_fields exclude_fields p key
    then loop p rest
           (Dict.set acc (INVALID_KEY_CHARS_RE_sub key)
                     (cleaned select_fields exclude_fields p key v))
    else loop p rest acc.
Proof.
  unfold kept, cleaned. simpl.
  destruct (skipped _ _ _); simpl; [done|]. by destruct v.
Qed.

Lemma loop_app p l1 l2 acc : loop p (l1 ++ l2)%list acc = loop p l2 (loop p l1 acc).
Proof.
  revert acc. induction l1 as [|[k v] l1 IH]; intros acc; [done|].
  rewrite <- app_comm_cons, !loop_cons. by destruct (kept _ _ _ _).
Qed.

Lemma get_loop_is_Some p items acc s :
  is_Some (Dict.get acc s) -> is_Some (Dict.get (loop p items acc) s).
Proof.
  revert acc. induction items as [|[k v] items IH]; intros acc H; [done|].
  rewrite loop_cons. destruct (kept _ _ _ _); [|by apply IH].
  apply IH. destruct (decide (INVALID_KEY_CHARS_RE_sub k = s)) as [<-|Hne].
  - rewrite get_set_eq. by eexists.
  - by rewrite get_set_ne.
Qed.

Lemma get_loop_other p items acc s :
  (forall k v, In (k, v) items ->
     kept select_fields exclude_fields p k = true ->
     INVALID_KEY_CHARS_RE_sub k <> s) ->
  Dict.get (loop p items acc) s = Dict.get acc s.
Proof.
  revert acc. induction items as [|[k v] items IH]; intros acc H; [done|].
  rewrite loop_cons. destruct (kept _ _ _ _) eqn:E.
  - rewrite IH; [|intros; eapply H; [by right|done]].
    apply get_set_ne. eapply H; [by left|done].
  - apply IH. intros; eapply H; [by right|done].
Qed.

Lemma In_loop p items acc k' v' :
  In (k', v') (loop p items acc) ->
  In (k', v') acc
  \/ exists key v, In (key, v) items
       /\ kept select_fields exclude_fields p key = true
       /\ k' = INVALID_KEY_CHARS_RE_sub key
       /\ v' = cleaned select_fields exclude_fields p key v.
Proof.
  revert acc. induction items as [|[k v] items IH]; intros acc H; [by left|].
  rewrite loop_cons in H. destruct (kept _ _ _ _) eqn:E.
  - destruct (IH _ H) as [Hin|(key & v0 & ? & ? & ? & ?)].
    + destruct (In_set _ _ _ _ _ Hin) as [[-> ->]|?]; [|by left].
      right. exists k, v. repeat split; [by left|done].
    + right. exists key, v0. repeat split; [by right|done..].
  - destruct (IH _ H) as [?|(key & v0 & ? & ? & ? & ?)]; [by left|].
    right. exists key, v0. repeat split; [by right|done..].
Qed.

Lemma length_loop_le p items acc :
  (List.length (loop p items acc)
   <= List.length acc
      + List.length (kept_items select_fields exclude_fields p items))%nat.
Proof.
  revert acc. induction items as [|[k v] items IH]; intros acc; [simpl; lia|].
  rewrite loop_cons. unfold kept_items in *. simpl.
  destruct (kept _ _ _ _); simpl; [|apply IH].
  etrans; [apply IH|]. rewrite length_set.
  destruct (Dict.get acc _); lia.
Qed.

End Clean.

(** ** Key sanitisation *)

Lemma valid_key_sub key : valid_key (INVALID_KEY_CHARS_RE_sub key) = true.
Proof.
  induction key as [|c key IH]; simpl; [done|].
  rewrite IH, andb_true_r. by destruct (valid_key_char c) eqn:E.
Qed.

Lemma replaced_sub key : replaced key (INVALID_KEY_CHARS_RE_sub key).
Proof.
  induction key as [|c key IH]; simpl; [constructor|].
  destruct (valid_key_char c) eqn:E; by constructor.
Qed.

Lemma replaced_inj key s : replaced key s -> s = INVALID_KEY_CHARS_RE_sub key.
Proof.
  induction 1 as [|c key s Hc _ IH|c key s Hc _ IH]; simpl; [done|..];
    by rewrite Hc, IH.
Qed.

Lemma keys_sanitized_set d k v :
  keys_sanitized (VDict d) = true -> valid_key k = true ->
  keys_sanitized v = true -> keys_sanitized (VDict (Dict.set d k v)) = true.
Proof.
  intros Hd Hk Hv. induction d as [|[k' v'] d IH]; simpl in *.
  - by rewrite Hk, Hv.
  - apply andb_prop in Hd as [Hd1 Hd2]. apply andb_prop in Hd1 as [Hk' Hv'].
    destruct (String.eqb k' k); simpl.
    + by rewrite Hk', Hv, Hd2.
    + by rewrite Hk', Hv', IH.
Qed.

Lemma keys_sanitized_clean_value select_fields exclude_fields v :
  forall p, keys_sanitized (clean_value select_fields exclude_fields p v) = true.
Proof.
  induction v as [| | | | | |d IH] using value_nested_ind; try done.
  intros p. rewrite clean_value_dict. unfold _clean_bigquery_keys.
  assert (Hacc : keys_sanitized (VDict []) = true) by done.
  revert Hacc. generalize (@nil (string * value)) as acc.
  induction d as [|[k v] d IHd]; intros acc Hacc; [done|].
  rewrite loop_cons. inversion_clear IH as [|? ? Hv Hd].
  destruct (kept _ _ _ _); [|by apply IHd].
  apply IHd; [done|]. apply keys_sanitized_set; [done|apply valid_key_sub|].
  apply Hv.
Qed.

(** C5 (amended): key sanitisation applies at every depth that is
    reached through nested records.  All keys of the output, in the
    record and in the records nested in it as values, consist of
    [[A-Za-z0-9_]]; every entry the filter keeps appears under its key
    with each character outside the class replaced by an underscore, and
    every entry of the output is such an entry, its value cleaned with the
    full path as the parent; a sequence is stored as it is, the records
    inside it keep their keys. *)
Theorem clean_sanitizes_keys_through_records
    (select_fields exclude_fields : fields) (_parent_key : option string)
    (record : dict) :
  keys_sanitized
    (VDict (_clean_bigquery_keys record select_fields exclude_fields _parent_key))
  = true
  /\ (forall key v, In (key, v) record ->
        kept select_fields exclude_fields _parent_key key = true ->
        exists s, replaced key s
          /\ is_Some (Dict.get (_clean_bigquery_keys record select_fields
                                  exclude_fields _parent_key) s))
  /\ (forall s v', In (s, v') (_clean_bigquery_keys record select_fields
                                  exclude_fields _parent_key) ->
        exists key v, In (key, v) record /\ replaced key s
          /\ v' = cleaned select_fields exclude_fields _parent_key key v)
  /\ (forall key l,
        cleaned select_fields exclude_fields _parent_key key (VList l) = VList l)
  /\ INVALID_KEY_CHARS_RE_sub "statefulset.kubernetes.io/pod-name"
     = "statefulset_kubernetes_io_pod_name".
Proof.
  repeat split.
  - rewrite <- clean_value_dict. apply keys_sanitized_clean_value.
  - intros key v Hin Hk. exists (INVALID_KEY_CHARS_RE_sub key).
    split; [apply replaced_sub|]. unfold _clean_bigquery_keys.
    apply in_split in Hin as (l1 & l2 & ->).
    rewrite loop_app, loop_cons, Hk. apply get_loop_is_Some.
    rewrite get_set_eq. by eexists.
  - intros s v' Hin. apply In_loop in Hin as [[]|(key & v & ? & ? & -> & ->)].
    exists key, v. repeat split; [done|apply replaced_sub].
Qed.

(** The claim as stated fails for a record held in a sequence: its key
    [b.c] reaches the output unchanged. *)
Lemma clean_skips_records_in_lists :
  _clean_bigquery_keys [("a", VList [VDict [("b.c", VInt 1)]])] None None None
  = [("a", VList [VDict [("b.c", VInt 1)]])]
  /\ keys_sanitized_deep
       (VDict (_clean_bigquery_keys
                 [("a", VList [VDict [("b.c", VInt 1)]])] None None None))
     = false.
Proof. split; reflexivity. Qed.

(** C10: two sibling keys that the filter keeps and that sanitise to the
    same string collide.  The output node then has fewer keys than the
    filter kept, and, unless a later sibling collides as well, the key
    holds the value of the later of the two: the earlier value is lost. *)
Theorem sanitized_keys_collide
    (select_fields exclude_fields : fields) (_parent_key : option string)
    (l1 l2 l3 : dict) (k1 k2 : string) (v1 v2 : value) :
  kept select_fields exclude_fields _parent_key k1 = true ->
  kept select_fields exclude_fields _parent_key k2 = true ->
  INVALID_KEY_CHARS_RE_sub k1 = INVALID_KEY_CHARS_RE_sub k2 ->
  (List.length
     (_clean_bigquery_keys (l1 ++ (k1, v1) :: l2 ++ (k2, v2) :: l3)%list
                           select_fields exclude_fields _parent_key)
   < List.length
       (kept_items select_fields exclude_fields _parent_key
                   (l1 ++ (k1, v1) :: l2 ++ (k2, v2) :: l3)%list))%nat
  /\ ((forall k v, In (k, v) l3 ->
         kept select_fields exclude_fields _parent_key k = true ->
         INVALID_KEY_CHARS_RE_sub k <> INVALID_KEY_CHARS_RE_sub k2) ->
      Dict.get
        (_clean_bigquery_keys (l1 ++ (k1, v1) :: l2 ++ (k2, v2) :: l3)%list
                              select_fields exclude_fields _parent_key)
        (INVALID_KEY_CHARS_RE_sub k1)
      = Some (cleaned select_fields exclude_fields _parent_key k2 v2)).
Proof.
  intros Hk1 Hk2 Hs. unfold _clean_bigquery_keys.
  rewrite loop_app, loop_cons, Hk1, loop_app, loop_cons, Hk2.
  set (a1 := clean_loop _ _ _ _ l1 []).
  set (a2 := Dict.set a1 _ _).
  set (a3 := clean_loop _ _ _ _ l2 a2).
  assert (H3 : is_Some (Dict.get a3 (INVALID_KEY_CHARS_RE_sub k2))).
  { apply get_loop_is_Some. unfold a2. rewrite <- Hs, get_set_eq. by eexists. }
  split.
  - unfold lt. eapply Nat.le_trans; [apply le_n_S, length_loop_le|].
    rewrite length_set. destruct H3 as [x ->].
    pose proof (length_loop_le select_fields exclude_fields _parent_key l2 a2).
    pose proof (length_loop_le select_fields exclude_fields _parent_key l1 []).
    fold a1 in H0. fold a3 in H.
    assert (List.length a2 <= S (List.length a1))%nat.
    { unfold a2. rewrite length_set. destruct (Dict.get a1 _); lia. }
    unfold kept_items in *. rewrite !List.filter_app.
    cbn [List.filter fst]. rewrite Hk1, List.filter_app.
    cbn [List.filter fst]. rewrite Hk2.
    rewrite !length_app. cbn [List.length] in *. rewrite !length_app.
    cbn [List.length]. lia.
  - intros Hl3. rewrite get_loop_other; [|by rewrite Hs].
    by rewrite Hs, get_set_eq.
Qed.

Lemma sanitized_keys_collide_witness :
  (List.length (_clean_bigquery_keys
                  [("pod.name", VStr "a"); ("pod_name", VStr "b")]
                  None None None) < 2)%nat
  /\ Dict.get (_clean_bigquery_keys
                 [("pod.name", VStr "a"); ("pod_name", VStr "b")]
                 None None None) "pod_name"
     = Some (VStr "b").
Proof.
  destruct (sanitized_keys_collide None None None [] [] []
              "pod.name" "pod_name" (VStr "a") (VStr "b")
              eq_refl eq_refl eq_refl) as [Hlen Hget].
  split; [exact Hlen|]. apply Hget. intros k v [].
Defined.

(** ** [Transformer.__init__]: the split of the field spec *)

Lemma startswith_minus f :
  startswith f "-" = true <-> exists r, f = String "-" r.
Proof.
  unfold startswith. destruct f as [|c r]; cbn [String.prefix].
  - split; [done|]. by intros [? ?].
  - destruct (ascii_dec "-" c) as [E|Hne].
    + subst c. split; [by eexists|]. by destruct r.
    + split; [done|]. intros [? [= E _]]. by subst c.
Qed.

Lemma lstrip_minus_startswith f : startswith (lstrip_minus f) "-" = false.
Proof.
  induction f as [|c r IH]; [done|]. cbn [lstrip_minus].
  destruct (Ascii.eqb c "-") eqn:E; [done|].
  unfold startswith. cbn [String.prefix].
  destruct (ascii_dec "-" c) as [E'|]; [|done].
  subst c. by rewrite Ascii.eqb_refl in E.
Qed.

(** C3 (amended): construction splits the field spec by the leading
    ["-"]: [select_fields] holds exactly the entries without it,
    [exclude_fields] exactly the prefixed entries with every leading ["-"]
    stripped, and no member of either set starts with ["-"].  The two
    sets are not disjoint in general: a path is in both exactly when the
    spec has it both plain and prefixed. *)
Theorem init_splits_field_spec
    (transform : string -> string -> fields -> fields -> stateE world unit)
    (source_dir sink_dir : string) (path_contains : option string)
    (field_spec : fields) (parallel_processes : Z) (x : string) :
  (in_fields x (select_fields
                  (Transformer_init transform source_dir sink_dir path_contains
                                    field_spec parallel_processes)) = true
   <-> in_fields x field_spec = true /\ startswith x "-" = false)
  /\ (in_fields x (exclude_fields
                     (Transformer_init transform source_dir sink_dir
                        path_contains field_spec parallel_processes)) = true
      <-> exists e, in_fields e field_spec = true
            /\ startswith e "-" = true /\ x = lstrip_minus e)
  /\ (in_fields x (exclude_fields
                     (Transformer_init transform source_dir sink_dir
                        path_contains field_spec parallel_processes)) = true
      -> startswith x "-" = false).
Proof.
  assert (Hex :
    in_fields x (exclude_fields
                   (Transformer_init transform source_dir sink_dir
                      path_contains field_spec parallel_processes)) = true
    <-> exists e, in_fields e field_spec = true
          /\ startswith e "-" = true /\ x = lstrip_minus e).
  { unfold Transformer_init. destruct (truthy_fields field_spec) eqn:Ht; simpl.
    - destruct field_spec as [spec|]; [|done]. simpl.
      rewrite bool_decide_eq_true, elem_of_map. split.
      + intros (e & -> & He). apply elem_of_filter in He as [? ?].
        exists e. by rewrite bool_decide_eq_true.
      + intros (e & He & ? & ->). exists e. split; [done|].
        apply elem_of_filter. by rewrite bool_decide_eq_true in He.
    - split; [done|]. intros (e & He & _).
      destruct field_spec as [spec|]; [|done]. simpl in *.
      apply negb_false_iff, bool_decide_eq_true in Ht. subst spec.
      by apply bool_decide_eq_true in He. }
  split; [|split; [exact Hex|]].
  - unfold Transformer_init. destruct (truthy_fields field_spec) eqn:Ht; simpl.
    + destruct field_spec as [spec|]; [|done]. simpl.
      rewrite !bool_decide_eq_true, elem_of_difference, elem_of_filter.
      clear Hex. destruct (startswith x "-"); intuition congruence.
    + split; [|by intros [? _]]. intros Hx. exfalso.
      destruct field_spec as [spec|]; [|done]. simpl in *.
      apply negb_false_iff, bool_decide_eq_true in Ht. subst spec.
      by apply bool_decide_eq_true in Hx.
  - intros Hx. apply Hex in Hx as (e & _ & _ & ->).
    apply lstrip_minus_startswith.
Qed.

(** The claim as stated fails when the spec holds a path both plain and
    prefixed: ["x"] is then selected and excluded. *)
Lemma init_select_exclude_overlap :
  in_fields "x" (select_fields
                   (Transformer_init (fun _ _ _ _ => StateE.ret tt)
                      "src" "out" None (Some {["x"; "-x"]}) 5)) = true
  /\ in_fields "x" (exclude_fields
                      (Transformer_init (fun _ _ _ _ => StateE.ret tt)
                         "src" "out" None (Some {["x"; "-x"]}) 5)) = true.
Proof. split; reflexivity. Qed.

(** ** Filtering with [select_fields = {"metric.tenant"}] *)



Section Select_metric_tenant.

Variable exclude_fields : fields.
Hypothesis not_excluded : in_fields "metric.tenant" exclude_fields = false.

Let sel : fields := Some {["metric.tenant"]}.





End Select_metric_tenant.



(** ** [transform_usage_metrics_record] step by step *)

Section Record_run.

Variable US_Pacific : Z -> Z.
Variables select_fields exclude_fields : fields.

Lemma transform_record_run record :
  transform_usage_metrics_record US_Pacific select_fields exclude_fields
                                 record
  = let r1 := Dict.pop record "@timestamp" in
    match (t <- Dict.getitem record "timestamp" ;; round_to_unit t 60)%py with
    | Raise e => (r1, Raise e)
    | Ok ts =>
        let r2 := Dict.set r1 "timestamp" (VInt ts) in
        match (metric <- Dict.getitem record "metric" ;;
               d <- py_getitem metric "_deltaSeconds" ;;
               rounded_delta d)%py with
        | Raise e => (r2, Raise e)
        | Ok delta =>
            match Dict.get record "metric" with
            | Some (VDict metric) =>
                match fromtimestamp US_Pacific ts with
                | Ok dt =>
                    (mutated record ts delta metric dt,
                     Ok (_clean_bigquery_keys
                           (mutated record ts delta metric dt)
                           select_fields exclude_fields None))
                | Raise e =>
                    (Dict.set r2 "metric"
                       (VDict (Dict.set metric "_deltaSeconds" (VInt delta))),
                     Raise e)
                end
            | _ => (r2, Raise TypeError)
            end
        end
    end.
Proof.
  unfold transform_usage_metrics_record, StateE.bind, StateE.modify,
    StateE.get, StateE.lift, StateE.put, StateE.raise, StateE.ret,
    rounded_delta, mutated.
  cbv beta zeta. unfold Dict.getitem.
  rewrite get_pop_ne by done.
  destruct (Dict.get record "timestamp") as [t|]; [|reflexivity]. simpl.
  destruct (round_to_unit t 60) as [ts|e]; [|reflexivity].
  rewrite !get_set_ne, !get_pop_ne by done.
  destruct (Dict.get record "metric") as [m|] eqn:Hm; [|reflexivity]. simpl.
  destruct (py_getitem m "_deltaSeconds") as [d|e] eqn:Hd; [|reflexivity]. simpl.
  destruct (py_int d) as [n|e] eqn:Hn; [|reflexivity]. simpl.
  destruct m; try reflexivity.
  rewrite get_set_ne, get_set_eq by done. simpl.
  by destruct (fromtimestamp US_Pacific ts).
Qed.
End Record_run.

(** ** Rounding *)

Lemma int_of_float_round t :
  int_of_float (inject_Z t / inject_Z 60 + 0.5)%Q = Z.quot (t + 30) 60.
Proof.
  unfold int_of_float. simpl.
  replace (t * 1 * 10 + 5 * Z.pos (1 * 60)) with ((t + 30) * 10) by lia.
  change (Z.pos (1 * 60 * 10)) with (60 * 10).
  by apply Z.quot_mul_cancel_r.
Qed.

Lemma Qfloor_round t :
  Qfloor (inject_Z t / inject_Z 60 + 0.5)%Q = (t + 30) / 60.
Proof.
  unfold Qfloor. simpl.
  replace (t * 1 * 10 + 5 * Z.pos (1 * 60)) with ((t + 30) * 10) by lia.
  change (Z.pos (1 * 60 * 10)) with (60 * 10).
  by apply Z.div_mul_cancel_r.
Qed.

(** [int] truncates towards zero: it is the floor from [-30] on. *)
Lemma int_of_float_round_floor t :
  -30 <= t ->
  int_of_float (inject_Z t / inject_Z 60 + 0.5)%Q
  = Qfloor (inject_Z t / inject_Z 60 + 0.5)%Q.
Proof.
  intros Ht. rewrite int_of_float_round, Qfloor_round.
  apply Z.quot_div_nonneg; lia.
Qed.

Lemma round_to_unit_int t :
  round_to_unit (VInt t) 60 = Ok (Z.quot (t + 30) 60 * 60).
Proof. unfold round_to_unit. simpl. by rewrite <- int_of_float_round. Qed.


(** ** The record transform: exceptions and the caller's record *)

Section Record_properties.

Variable US_Pacific : Z -> Z.
Variables select_fields exclude_fields : fields.

Let run := transform_usage_metrics_record US_Pacific select_fields
                                          exclude_fields.

Lemma getitem_Exception d k e :
  Dict.getitem d k = Raise e -> is_Exception e = true.
Proof. unfold Dict.getitem. destruct (Dict.get d k); by intros [= <-]. Qed.

Lemma round_to_unit_Exception x u e :
  round_to_unit x u = Raise e -> is_Exception e = true.
Proof. destruct x; simpl; by intros [= <-]. Qed.

Lemma py_getitem_Exception x k e :
  py_getitem x k = Raise e -> is_Exception e = true.
Proof.
  destruct x; simpl; try by intros [= <-]. apply getitem_Exception.
Qed.

Lemma rounded_delta_Exception d e :
  rounded_delta d = Raise e -> is_Exception e = true.
Proof.
  unfold rounded_delta. destruct d; simpl; try by intros [= <-].
  destruct (int_of_str s); simpl; by intros [= <-].
Qed.

Lemma fromtimestamp_Exception tz ts e :
  fromtimestamp tz ts = Raise e -> is_Exception e = true.
Proof.
  unfold fromtimestamp.
  repeat match goal with |- context [if ?b then _ else _] => destruct b end;
    by intros [= <-].
Qed.

(** Whatever the record transform raises is an [Exception]. *)
Lemma transform_record_Exception record e :
  snd (run record) = Raise e -> is_Exception e = true.
Proof.
  unfold run. rewrite transform_record_run. cbv zeta.
  destruct (Dict.getitem record "timestamp") as [t|e1] eqn:Ht; cbn [bind].
  2: { intros [= <-]. by eapply getitem_Exception. }
  destruct (round_to_unit t 60) as [ts|e1] eqn:Hts.
  2: { intros [= <-]. by eapply round_to_unit_Exception. }
  destruct (Dict.getitem record "metric") as [m|e1] eqn:Hm; cbn [bind].
  2: { intros [= <-]. by eapply getitem_Exception. }
  destruct (py_getitem m "_deltaSeconds") as [d|e1] eqn:Hd; cbn [bind].
  2: { intros [= <-]. by eapply py_getitem_Exception. }
  destruct (rounded_delta d) as [delta|e1] eqn:Hdelta.
  2: { intros [= <-]. by eapply rounded_delta_Exception. }
  destruct (Dict.get record "metric") as [[]|]; try by intros [= <-].
  destruct (fromtimestamp US_Pacific ts) as [dt|e1] eqn:Hdt; [done|].
  intros [= <-]. by eapply fromtimestamp_Exception.
Qed.

Lemma get_mutated_at_timestamp record ts delta metric dt :
  Dict.get (mutated record ts delta metric dt) "@timestamp" = None.
Proof.
  unfold mutated. rewrite !get_set_ne by done. apply get_pop_eq.
Qed.

Lemma transform_record_success record out :
  snd (run record) = Ok out ->
  exists t ts metric d delta dt,
    Dict.get record "timestamp" = Some t
    /\ round_to_unit t 60 = Ok ts
    /\ Dict.get record "metric" = Some (VDict metric)
    /\ Dict.get metric "_deltaSeconds" = Some d
    /\ rounded_delta d = Ok delta
    /\ fromtimestamp US_Pacific ts = Ok dt
    /\ fst (run record) = mutated record ts delta metric dt
    /\ out = _clean_bigquery_keys (mutated record ts delta metric dt)
                                  select_fields exclude_fields None.
Proof.
  unfold run. rewrite transform_record_run. cbv zeta. unfold Dict.getitem.
  destruct (Dict.get record "timestamp") as [t|]; [|done]. cbn [bind].
  destruct (round_to_unit t 60) as [ts|] eqn:Hts; [|done].
  destruct (Dict.get record "metric") as [m|]; [|done]. cbn [bind].
  destruct (py_getitem m "_deltaSeconds") as [d|] eqn:Hd; [|done]. cbn [bind].
  destruct (rounded_delta d) as [delta|] eqn:Hdelta; [|done].
  destruct m as [| | | | | |metric]; try done.
  destruct (fromtimestamp US_Pacific ts) as [dt|] eqn:Hdt; [|done].
  intros [= <-]. exists t, ts, metric, d, delta, dt.
  repeat split; try done.
  simpl in Hd. unfold Dict.getitem in Hd.
  destruct (Dict.get metric "_deltaSeconds"); congruence.
Qed.

Lemma transform_record_pops record :
  Dict.get (fst (run record)) "@timestamp" = None.
Proof.
  unfold run. rewrite transform_record_run. cbv zeta.
  destruct (_ <- Dict.getitem record "timestamp" ;; _)%py as [ts|];
    [|apply get_pop_eq].
  assert (H2 : forall v, Dict.get (Dict.set (Dict.pop record "@timestamp")
                            "timestamp" v) "@timestamp" = None).
  { intros v. rewrite get_set_ne by done. apply get_pop_eq. }
  destruct (_ <- Dict.getitem record "metric" ;; _)%py as [delta|]; [|apply H2].
  destruct (Dict.get record "metric") as [[]|]; try apply H2.
  destruct (fromtimestamp US_Pacific ts) as [dt|];
    [apply get_mutated_at_timestamp|].
  simpl. rewrite get_set_ne by done. apply H2.
Qed.

End Record_properties.

(** C2 (amended): the record transform returns a record it builds anew,
    but it works on the caller's record in place.  After the call the
    caller's record has lost [@timestamp]; after a normal return it holds
    the rounded [timestamp], the rounded [_deltaSeconds] inside its
    [metric] record and the two derived keys, and the returned record is
    the cleaned copy of that mutated record.  A record that had
    [@timestamp] is therefore never left unchanged. *)
Theorem transform_record_mutates_input
    (US_Pacific : Z -> Z) (select_fields exclude_fields : fields)
    (record : dict) :
  Dict.get (fst (transform_usage_metrics_record US_Pacific select_fields
                   exclude_fields record)) "@timestamp" = None
  /\ (forall out,
        snd (transform_usage_metrics_record US_Pacific select_fields
               exclude_fields record) = Ok out ->
        exists t ts metric d delta dt,
          Dict.get record "timestamp" = Some t
          /\ round_to_unit t 60 = Ok ts
          /\ Dict.get record "metric" = Some (VDict metric)
          /\ Dict.get metric "_deltaSeconds" = Some d
          /\ rounded_delta d = Ok delta
          /\ fromtimestamp US_Pacific ts = Ok dt
          /\ fst (transform_usage_metrics_record US_Pacific select_fields
                    exclude_fields record)
             = mutated record ts delta metric dt
          /\ out = _clean_bigquery_keys (mutated record ts delta metric dt)
                                        select_fields exclude_fields None)
  /\ (is_Some (Dict.get record "@timestamp") ->
      fst (transform_usage_metrics_record US_Pacific select_fields
             exclude_fields record) <> record).
Proof.
  split; [apply transform_record_pops|]. split.
  - apply transform_record_success.
  - intros [v Hv] Heq.
    pose proof (transform_record_pops US_Pacific select_fields exclude_fields
                                      record) as H.
    rewrite Heq in H. congruence.
Qed.

(** The claim as stated fails on the record of the scenario: the call
    returns normally and the caller's record, its nested [metric]
    included, is no longer what it was. *)
Lemma transform_record_changes_scenario_input :
  (exists out,
     snd (transform_usage_metrics_record PST None None scenario_record)
     = Ok out)
  /\ fst (transform_usage_metrics_record PST None None scenario_record)
     <> scenario_record
  /\ lookup_path (VDict scenario_record) ["metric"; "_deltaSeconds"]
     = Some (VStr "50")
  /\ lookup_path
       (VDict (fst (transform_usage_metrics_record PST None None
                      scenario_record)))
       ["metric"; "_deltaSeconds"]
     = Some (VInt 60).
Proof.
  split; [by eexists|]. split; [|split; reflexivity].
  intros H. discriminate H.
Qed.

(** C7: the end-to-end scenario.  Where the zone is eight hours behind
    UTC at the rounded instant, the record of the scenario, transformed
    with no field spec, gives the record the scenario names, and
    [@timestamp] is absent from it. *)
Theorem scenario_end_to_end (US_Pacific : Z -> Z) :
  US_Pacific 1234560 = -28800 ->
  snd (transform_usage_metrics_record US_Pacific None None scenario_record)
  = Ok [("timestamp", VInt 1234560);
        ("metric", VDict [("_deltaSeconds", VInt 60);
                          ("statefulset_kubernetes_io_pod_name", VStr "p")]);
        ("datetime_pt", VStr "1970-01-14 22:56:00");
        ("date_pt", VStr "1970-01-14")]
  /\ (forall out,
        snd (transform_usage_metrics_record US_Pacific None None
               scenario_record) = Ok out ->
        py_eq (VDict out) (VDict scenario_output) = true
        /\ Dict.get out "@timestamp" = None
        /\ lookup_path (VDict out) ["datetime_pt"]
           = Some (VStr (strftime_datetime
                           (datetime_of_seconds (1234560 + US_Pacific 1234560))))
        /\ lookup_path (VDict out) ["date_pt"]
           = Some (VStr (strftime_date
                           (datetime_of_seconds (1234560 + US_Pacific 1234560))))).
Proof.
  intros Htz.
  assert (Hrun :
    snd (transform_usage_metrics_record US_Pacific None None scenario_record)
    = Ok [("timestamp", VInt 1234560);
          ("metric", VDict [("_deltaSeconds", VInt 60);
                            ("statefulset_kubernetes_io_pod_name", VStr "p")]);
          ("datetime_pt", VStr "1970-01-14 22:56:00");
          ("date_pt", VStr "1970-01-14")]).
  { rewrite transform_record_run. cbv zeta.
    change (Dict.getitem scenario_record "timestamp") with (Ok (VInt 1234567)).
    cbn [bind]. rewrite round_to_unit_int.
    change (Z.quot (1234567 + 30) 60 * 60) with 1234560.
    change (_ <- Dict.getitem scenario_record "metric" ;; _)%py with (Ok 60).
    change (Dict.get scenario_record "metric")
      with (Some (VDict [("_deltaSeconds", VStr "50");
                         ("statefulset.kubernetes.io/pod-name", VStr "p")])).
    unfold fromtimestamp. rewrite Htz. reflexivity. }
  split; [exact Hrun|].
  intros out Hout. rewrite Hrun in Hout. injection Hout as <-.
  rewrite Htz. repeat split; reflexivity.
Qed.

Lemma scenario_end_to_end_witness :
  snd (transform_usage_metrics_record PST None None scenario_record)
  = Ok [("timestamp", VInt 1234560);
        ("metric", VDict [("_deltaSeconds", VInt 60);
                          ("statefulset_kubernetes_io_pod_name", VStr "p")]);
        ("datetime_pt", VStr "1970-01-14 22:56:00");
        ("date_pt", VStr "1970-01-14")].
Proof. exact (proj1 (scenario_end_to_end PST eq_refl)). Defined.

(** ** Records the transform rejects *)

Lemma transform_record_raises tz sel exc record :
  timestamp_unusable record || delta_unusable record = true ->
  exists e,
    snd (transform_usage_metrics_record tz sel exc record) = Raise e
    /\ is_Exception e = true.
Proof.
  intros H.
  destruct (snd (transform_usage_metrics_record tz sel exc record))
    as [out|e] eqn:Hrun.
  - exfalso.
    apply transform_record_success in Hrun
      as (t & ts & metric & d & delta & dt & Ht & Hts & Hm & Hd & Hdelta & _).
    unfold timestamp_unusable, delta_unusable in H.
    rewrite Ht, Hm, Hd in H.
    destruct t; try discriminate Hts; simpl in H;
      destruct d; try discriminate Hdelta; try discriminate H.
    all: unfold rounded_delta in Hdelta; simpl in Hdelta;
      destruct (int_of_str s); discriminate.
  - exists e. split; [done|]. by eapply transform_record_Exception.
Qed.

(** ** The rounding law on the output *)


Lemma wf_set d k v : Dict.wf d -> Dict.wf (Dict.set d k v).
Proof.
  unfold Dict.wf, Dict.keys.
  induction d as [|[k' v'] d IH]; simpl; intros Hd.
  - apply NoDup_singleton.
  - apply NoDup_cons in Hd as [Hnin Hd'].
    destruct (String.eqb k' k) eqn:E; simpl; [by apply NoDup_cons|].
    apply NoDup_cons. split; [|by apply IH].
    rewrite list_elem_of_In. intros Hin.
    apply in_map_iff in Hin as ([k0 v0] & Hk0 & Hin).
    simpl in Hk0. subst k0.
    apply In_set in Hin as [[-> _]|Hin].
    + by rewrite String.eqb_refl in E.
    + apply Hnin. rewrite list_elem_of_In. apply in_map_iff. by exists (k', v0).
Qed.



Lemma kept_no_filter p k : kept None None p k = true.
Proof. reflexivity. Qed.




Lemma In_mutated_key record ts delta metric dt k v :
  In (k, v) (mutated record ts delta metric dt) ->
  k = "date_pt" \/ k = "datetime_pt" \/ k = "metric" \/ k = "timestamp"
  \/ In (k, v) record.
Proof.
  unfold mutated. intros H.
  repeat (apply In_set in H as [[-> _]|H]; [tauto|]).
  unfold Dict.pop in H. apply List.filter_In in H as [H _]. tauto.
Qed.




(** ** The file system *)

Lemma exists_false_no_file w p :
  os_path_exists w p = false -> files w !! p = None.
Proof.
  unfold os_path_exists, is_file. intros H.
  apply orb_false_elim in H as [H _].
  apply bool_decide_eq_false in H.
  destruct (files w !! p); [|done]. exfalso. apply H. by eexists.
Qed.

Lemma os_makedirs_files name w :
  files (fst (os_makedirs name w)) = files w
  /\ stdout (fst (os_makedirs name w)) = stdout w.
Proof. unfold os_makedirs. by destruct (_ || _). Qed.

Lemma os_rename_raise src dst w e :
  snd (os_rename src dst w) = Raise e -> fst (os_rename src dst w) = w.
Proof.
  unfold os_rename. destruct (files w !! src); [|done].
  by destruct (is_dir w dst).
Qed.

Lemma os_rename_stdout src dst w :
  stdout (fst (os_rename src dst w)) = stdout w.
Proof.
  unfold os_rename. destruct (files w !! src); [|done].
  by destruct (is_dir w dst).
Qed.

(** ** [transform_usage_metrics] writes its output file only *)

Section File_frame.

Variable US_Pacific : Z -> Z.
Variables input_file output_file : string.
Variables sel exc : fields.

Let body (l : line) : stateE world unit :=
  (record <- StateE.lift (json_loads l) ;;
   clean_record <- StateE.lift (call_record_transform US_Pacific record sel exc) ;;
   fp_write output_file (Some (VDict clean_record)))%st.

Lemma body_frame l w : same_but output_file w (fst (body l w)).
Proof.
  unfold body, StateE.bind, StateE.lift, fp_write, StateE.modify.
  destruct (json_loads l); [|done].
  destruct (call_record_transform _ _ _ _); [|done].
  split; [|done]. intros p Hp. simpl. by rewrite lookup_insert_ne.
Qed.

Lemma body_Exception l w e :
  snd (body l w) = Raise e -> is_Exception e = true.
Proof.
  unfold body, StateE.bind, StateE.lift, fp_write, StateE.modify.
  destruct l as [v|]; simpl; [|by intros [= <-]].
  destruct (call_record_transform _ _ _ _) eqn:Hc; [done|].
  intros [= <-]. destruct v; simpl in Hc; try by injection Hc as <-.
  by apply transform_record_Exception in Hc.
Qed.

Lemma for_each_frame lines w :
  same_but output_file w (fst (for_each lines body w)).
Proof.
  revert w. induction lines as [|l lines IH]; intros w; [done|].
  simpl. unfold StateE.bind at 1.
  pose proof (body_frame l w) as [Hf Hs].
  destruct (body l w) as [w1 [[]|e]]; simpl in *; [|done].
  destruct (IH w1) as [Hf' Hs']. split; [|congruence].
  intros p Hp. rewrite Hf', Hf; done.
Qed.

Lemma for_each_Exception lines w e :
  snd (for_each lines body w) = Raise e -> is_Exception e = true.
Proof.
  revert w. induction lines as [|l lines IH]; intros w; [done|].
  simpl. unfold StateE.bind at 1.
  destruct (body l w) as [w1 [[]|e1]] eqn:Hb; [apply IH|].
  simpl. intros [= <-]. apply (body_Exception l w).
  by rewrite Hb.
Qed.

Lemma for_each_raises l1 record l2 w :
  timestamp_unusable record || delta_unusable record = true ->
  exists e,
    snd (for_each (l1 ++ Some (VDict record) :: l2)%list body w) = Raise e.
Proof.
  intros Hbad. revert w. induction l1 as [|l l1 IH]; intros w.
  - simpl. unfold StateE.bind at 1, body at 1.
    unfold StateE.bind, StateE.lift. simpl.
    destruct (transform_record_raises US_Pacific sel exc record Hbad)
      as (e & -> & _).
    by exists e.
  - simpl. unfold StateE.bind at 1.
    destruct (body l w) as [w1 [[]|e1]]; [apply IH|by exists e1].
Qed.

Lemma transform_usage_metrics_frame w :
  same_but output_file w
    (fst (transform_usage_metrics US_Pacific input_file output_file
                                  sel exc w)).
Proof.
  unfold transform_usage_metrics, StateE.bind, gzip_open_wt, gzip_open_rt.
  destruct (_ || _); [done|]. simpl.
  assert (H0 : same_but output_file w (set_files <[output_file:=[]]> w)).
  { split; [|done]. intros p Hp. simpl. by rewrite lookup_insert_ne. }
  destruct (_ !! input_file) as [lines|]; [|done].
  pose proof (for_each_frame lines (set_files <[output_file:=[]]> w))
    as [Hf Hs].
  destruct H0 as [Hf0 Hs0].
  split; [|etrans; [exact Hs|exact Hs0]].
  intros p Hp. etrans; [exact (Hf p Hp)|exact (Hf0 p Hp)].
Qed.

Lemma transform_usage_metrics_Exception w e :
  snd (transform_usage_metrics US_Pacific input_file output_file sel exc w)
  = Raise e ->
  is_Exception e = true.
Proof.
  unfold transform_usage_metrics, StateE.bind, gzip_open_wt, gzip_open_rt.
  destruct (_ || _); [by intros [= <-]|]. simpl.
  destruct (_ !! input_file) as [lines|]; [|by intros [= <-]].
  intros H. exact (for_each_Exception lines _ e H).
Qed.

Lemma transform_usage_metrics_raises l1 record l2 w :
  input_file <> output_file ->
  files w !! input_file = Some (l1 ++ Some (VDict record) :: l2)%list ->
  timestamp_unusable record || delta_unusable record = true ->
  exists e,
    snd (transform_usage_metrics US_Pacific input_file output_file sel exc w)
    = Raise e.
Proof.
  intros Hne Hin Hbad.
  unfold transform_usage_metrics, StateE.bind, gzip_open_wt, gzip_open_rt.
  destruct (is_dir w output_file || _); [eexists; reflexivity|]. simpl.
  rewrite lookup_insert_ne, Hin by done.
  exact (for_each_raises l1 record l2 _ Hbad).
Qed.

End File_frame.

Lemma transform_usage_metrics_writes_only_output US_Pacific :
  writes_only_output (transform_usage_metrics US_Pacific).
Proof. intros ? ? ? ? ?. apply transform_usage_metrics_frame. Qed.

(** ** [Transformer._transform_file] *)

Section Worker.

Variable self : Transformer.
Variable input_file : string.

Let output_file := output_file_of self input_file.
Let temp_file := temp_file_of output_file.

(** A file whose output exists is skipped: a notice is printed and
    nothing else happens. *)
Lemma transform_file_skips w :
  os_path_exists w output_file = true ->
  _transform_file self input_file w
  = (mk_world (files w) (dirs w)
              (stdout w ++ [skip_notice self input_file])%list,
     Ok tt).
Proof.
  intros H. unfold _transform_file, StateE.bind, StateE.get.
  fold output_file. by rewrite H.
Qed.

(** The handler leaves no file at the two paths when the output file
    was absent or the temp file present, and returns normally. *)
Lemma except_block_cleans e w :
  files w !! output_file = None \/ is_Some (files w !! temp_file) ->
  snd (except_block input_file temp_file output_file e w) = Ok tt
  /\ files (fst (except_block input_file temp_file output_file e w))
       !! output_file = None
  /\ files (fst (except_block input_file temp_file output_file e w))
       !! temp_file = None
  /\ stdout (fst (except_block input_file temp_file output_file e w))
     = (stdout w ++ printed_on e input_file)%list.
Proof.
  intros H.
  set (w1 := fst ((match e with
                   | KeyboardInterrupt =>
                       print ("ERROR: Could not transform " ++ input_file ++ ": ")
                   | _ => StateE.ret tt
                   end) w)).
  assert (Hw1 : files w1 = files w
                /\ stdout w1 = (stdout w ++ printed_on e input_file)%list).
  { unfold w1. destruct e; simpl; by rewrite ?app_nil_r. }
  destruct Hw1 as [Hf Hs].
  assert (Hrun :
    except_block input_file temp_file output_file e w
    = StateE.try_except (os_unlink temp_file ;;; os_unlink output_file)%st
        is_Exception (fun _ => StateE.ret tt) w1).
  { unfold except_block, StateE.bind, w1. by destruct e. }
  rewrite Hrun. clear Hrun.
  unfold StateE.try_except, StateE.bind, os_unlink, is_file.
  rewrite Hf. 
  destruct (files w !! temp_file) as [c|] eqn:Ht.
  - rewrite bool_decide_true by by eexists. simpl.
    destruct (decide (output_file = temp_file)) as [Heq|Hne].
    + rewrite Heq, Hf, lookup_delete_eq.
      rewrite bool_decide_false by by intros [? ?]. simpl.
      rewrite Hf, lookup_delete_eq. done.
    + rewrite Hf, lookup_delete_ne by done.
      destruct (files w !! output_file) as [c'|] eqn:Ho.
      * rewrite bool_decide_true by by eexists. simpl.
        rewrite Hf, lookup_delete_eq, lookup_delete_ne, lookup_delete_eq by done.
        done.
      * rewrite bool_decide_false by by intros [? ?]. simpl.
        rewrite Hf, lookup_delete_ne, lookup_delete_eq, Ho by done. done.
  - rewrite bool_decide_false by by intros [? ?]. simpl.
    rewrite Hf, Ht. destruct H as [H|[? H]]; [|done]. by rewrite H.
Qed.

(** The world in which the worker starts the [try] block. *)
Let started (w : world) : world :=
  mk_world (files w) (dirs w) (stdout w ++ [start_notice input_file])%list.

Lemma try_block_raise w e :
  writes_only_output (_transform self) ->
  files w !! output_file = None ->
  snd (try_block self input_file temp_file output_file w) = Raise e ->
  (files (fst (try_block self input_file temp_file output_file w))
     !! output_file = None
   \/ is_Some (files (fst (try_block self input_file temp_file output_file w))
                 !! temp_file))
  /\ stdout (fst (try_block self input_file temp_file output_file w))
     = stdout w.
Proof.
  intros Hframe Hout. unfold try_block, StateE.bind.
  pose proof (os_makedirs_files (os_path_dirname temp_file) w) as [Hf1 Hs1].
  destruct (os_makedirs (os_path_dirname temp_file) w) as [w1 [[]|e1]];
    simpl in Hf1, Hs1.
  2: { intros _. simpl. rewrite Hf1, Hs1. by split; [left|]. }
  destruct (Hframe input_file temp_file (select_fields self)
              (exclude_fields self) w1) as [Hf2 Hs2].
  destruct (_transform self input_file temp_file (select_fields self)
              (exclude_fields self) w1) as [w2 [[]|e2]]; simpl in Hf2, Hs2.
  - pose proof (os_rename_raise temp_file output_file w2) as Hr.
    pose proof (os_rename_stdout temp_file output_file w2) as Hs3.
    destruct (os_rename temp_file output_file w2) as [w3 [[]|e3]];
      simpl in *; [done|].
    intros _. rewrite (Hr e3 eq_refl). split; [|congruence].
    destruct (decide (output_file = temp_file)) as [Heq|Hne].
    + rewrite Heq. destruct (files w2 !! temp_file); [right; by eexists|by left].
    + left. rewrite Hf2 by done. by rewrite Hf1.
  - intros _. simpl. split; [|congruence].
    destruct (decide (output_file = temp_file)) as [Heq|Hne].
    + rewrite Heq. destruct (files w2 !! temp_file); [right; by eexists|by left].
    + left. rewrite Hf2 by done. by rewrite Hf1.
Qed.

Lemma transform_file_run w :
  os_path_exists w output_file = false ->
  _transform_file self input_file w
  = match try_block self input_file temp_file output_file (started w) with
    | (w2, Raise e) =>
        if caught_by_worker e
        then except_block input_file temp_file output_file e w2
        else (w2, Raise e)
    | r => r
    end.
Proof.
  intros H. unfold _transform_file, StateE.bind, StateE.get.
  fold output_file. rewrite H. unfold print, StateE.modify, StateE.try_except.
  fold temp_file. fold (started w).
  by destruct (try_block _ _ _ _ _) as [w2 [[]|e]].
Qed.

(** A failure the worker catches: both paths are clean afterwards, the
    method returns [None], and nothing but the notice of the start is
    printed unless the exception is a [KeyboardInterrupt]. *)
Lemma transform_file_failure w e :
  writes_only_output (_transform self) ->
  os_path_exists w output_file = false ->
  snd (try_block self input_file temp_file output_file (started w))
  = Raise e ->
  caught_by_worker e = true ->
  snd (_transform_file self input_file w) = Ok tt
  /\ files (fst (_transform_file self input_file w)) !! output_file = None
  /\ files (fst (_transform_file self input_file w)) !! temp_file = None
  /\ stdout (fst (_transform_file self input_file w))
     = (stdout w ++ start_notice input_file :: printed_on e input_file)%list.
Proof.
  intros Hframe Hex Hraise Hcaught.
  pose proof (exists_false_no_file _ _ Hex) as Hout.
  destruct (try_block_raise (started w) e Hframe Hout Hraise) as [Hclean Hs].
  rewrite (transform_file_run w Hex).
  destruct (try_block self input_file temp_file output_file (started w))
    as [w2 r] eqn:Hrun.
  simpl in Hraise, Hclean, Hs. subst r. rewrite Hcaught.
  destruct (except_block_cleans e w2 Hclean) as (H1 & H2 & H3 & H4).
  repeat split; try done.
  rewrite H4, Hs. unfold started. simpl. by rewrite <- app_assoc.
Qed.

End Worker.

Lemma init_transform f src sink pc spec n :
  _transform (Transformer_init f src sink pc spec n) = f.
Proof. unfold Transformer_init. by destruct (truthy_fields spec). Qed.

Lemma is_Exception_caught e : is_Exception e = true -> caught_by_worker e = true.
Proof. by destruct e. Qed.

Lemma try_block_raises_on_bad_record
    US_Pacific src sink pc spec n input_file temp_file output_file
    l1 record l2 w :
  input_file <> temp_file ->
  files w !! input_file = Some (l1 ++ Some (VDict record) :: l2)%list ->
  timestamp_unusable record || delta_unusable record = true ->
  exists e,
    snd (try_block
           (Transformer_init (transform_usage_metrics US_Pacific)
                             src sink pc spec n)
           input_file temp_file output_file w) = Raise e
    /\ is_Exception e = true.
Proof.
  intros Hne Hin Hbad. unfold try_block, StateE.bind.
  rewrite init_transform.
  pose proof (os_makedirs_files (os_path_dirname temp_file) w) as [Hf1 _].
  destruct (os_makedirs (os_path_dirname temp_file) w) as [w1 [[]|e1]] eqn:Hmk;
    simpl in Hf1.
  2: { exists e1. split; [done|]. unfold os_makedirs in Hmk.
       destruct (String.eqb _ _ || _); by inversion Hmk. }
  rewrite <- Hf1 in Hin.
  set (sel := select_fields _). set (exc := exclude_fields _).
  destruct (transform_usage_metrics_raises US_Pacific input_file temp_file
              sel exc l1 record l2 w1 Hne Hin Hbad) as [e He].
  pose proof (transform_usage_metrics_Exception US_Pacific input_file temp_file
                sel exc w1 e He) as Hexc.
  destruct (transform_usage_metrics US_Pacific input_file temp_file sel exc w1)
    as [w2 r]. simpl in He. subst r. by exists e.
Qed.

(** C9 (amended): a record the transform cannot use makes it raise, and
    the failure makes the worker drop the file.  The record is unusable
    when [timestamp] is missing or is neither a number nor a boolean, when
    [metric] is missing or is not a record, or when [_deltaSeconds] is
    missing or is something [int] rejects.  The transform then raises an
    [Exception] whatever the field sets; a file that contains such a
    record, processed by the worker of a job built on
    [transform_usage_metrics], ends with no file at the output path and
    none at the temp path, and the worker returns normally. *)
Theorem unusable_record_fails_its_file
    (US_Pacific : Z -> Z) (source_dir sink_dir : string)
    (path_contains : option string) (field_spec : fields)
    (parallel_processes : Z) (input_file : string)
    (l1 l2 : list line) (record : dict) (w : world) :
  timestamp_unusable record || delta_unusable record = true ->
  files w !! input_file = Some (l1 ++ Some (VDict record) :: l2)%list ->
  os_path_exists w
    (output_file_of
       (Transformer_init (transform_usage_metrics US_Pacific) source_dir
          sink_dir path_contains field_spec parallel_processes)
       input_file) = false ->
  input_file
  <> temp_file_of
       (output_file_of
          (Transformer_init (transform_usage_metrics US_Pacific) source_dir
             sink_dir path_contains field_spec parallel_processes)
          input_file) ->
  (forall sel exc, exists e,
     snd (transform_usage_metrics_record US_Pacific sel exc record) = Raise e
     /\ is_Exception e = true)
  /\ snd (_transform_file
            (Transformer_init (transform_usage_metrics US_Pacific) source_dir
               sink_dir path_contains field_spec parallel_processes)
            input_file w) = Ok tt
  /\ files (fst (_transform_file
                   (Transformer_init (transform_usage_metrics US_Pacific)
                      source_dir sink_dir path_contains field_spec
                      parallel_processes)
                   input_file w))
       !! output_file_of
            (Transformer_init (transform_usage_metrics US_Pacific) source_dir
               sink_dir path_contains field_spec parallel_processes)
            input_file = None
  /\ files (fst (_transform_file
                   (Transformer_init (transform_usage_metrics US_Pacific)
                      source_dir sink_dir path_contains field_spec
                      parallel_processes)
                   input_file w))
       !! temp_file_of
            (output_file_of
               (Transformer_init (transform_usage_metrics US_Pacific)
                  source_dir sink_dir path_contains field_spec
                  parallel_processes)
               input_file) = None.
Proof.
  intros Hbad Hin Hex Hne.
  set (self := Transformer_init _ _ _ _ _ _) in *.
  split; [intros sel exc; by apply transform_record_raises|].
  destruct (try_block_raises_on_bad_record US_Pacific source_dir sink_dir
              path_contains field_spec parallel_processes input_file
              (temp_file_of (output_file_of self input_file))
              (output_file_of self input_file) l1 record l2
              (mk_world (files w) (dirs w)
                        (stdout w ++ [start_notice input_file])%list)
              Hne Hin Hbad) as (e & He & Hexc).
  fold self in He.
  destruct (transform_file_failure self input_file w e) as (H1 & H2 & H3 & _);
    try done.
  - unfold self. rewrite init_transform.
    apply transform_usage_metrics_writes_only_output.
  - by apply is_Exception_caught.
Qed.

(** The claim as stated fails for a JSON boolean, which is not a number
    of the record model but an [int] for Python: the transform returns a
    record with [timestamp] 0 and [_deltaSeconds] 60. *)
Lemma boolean_fields_are_accepted :
  snd (transform_usage_metrics_record PST None None
         [("timestamp", VBool true);
          ("metric", VDict [("_deltaSeconds", VBool true)])])
  = Ok [("timestamp", VInt 0);
        ("metric", VDict [("_deltaSeconds", VInt 60)]);
        ("datetime_pt", VStr "1969-12-31 16:00:00");
        ("date_pt", VStr "1969-12-31")].
Proof. reflexivity. Qed.

Lemma unusable_record_fails_its_file_witness :
  snd (_transform_file usage_job "src/a/y.gz" bad_tree) = Ok tt
  /\ files (fst (_transform_file usage_job "src/a/y.gz" bad_tree))
       !! "out/a/y.gz" = None
  /\ files (fst (_transform_file usage_job "src/a/y.gz" bad_tree))
       !! "out/a/.y.gz" = None.
Proof.
  assert (Hne : "src/a/y.gz" <> temp_file_of (output_file_of usage_job "src/a/y.gz"))
    by discriminate.
  exact (proj2 (unusable_record_fails_its_file PST "src" "out" None None 5
                  "src/a/y.gz" [Some (VDict scenario_record)] []
                  record_without_timestamp bad_tree
                  eq_refl eq_refl eq_refl Hne)).
Defined.

(** ** The job: skipping what is already there *)


Lemma data_files_of_ext self w w' :
  files w' = files w -> data_files_of self w' = data_files_of self w.
Proof. unfold data_files_of. by intros ->. Qed.


Lemma print_run msg w :
  print msg w = (mk_world (files w) (dirs w) (stdout w ++ [msg])%list, Ok tt).
Proof. reflexivity. Qed.

Lemma print_fields_frame label fs w :
  snd (print_fields label fs w) = Ok tt
  /\ files (fst (print_fields label fs w)) = files w
  /\ dirs (fst (print_fields label fs w)) = dirs w.
Proof. unfold print_fields. by destruct (truthy_fields fs). Qed.





(** Even when every transform succeeds a second run can have work left:
    the temp file of [a] is the output file of [.a], so with [.a] done
    first its output is taken away by the commit of [a]. *)
Example hidden_sibling_output_is_taken :
  dom (files (fst (pool_map usage_job ["src/.a"; "src/a"]
                     (mk_world {[ "src/a" := [Some (VDict scenario_record)];
                                  "src/.a" := [Some (VDict scenario_record)] ]}
                               {[ "src" ]} []))))
  = {[ "src/a"; "src/.a"; "out/a" ]}.
Proof. vm_compute. reflexivity. Qed.

(** C6, at a failing input.  The file of [bad_tree] fails in its second
    record.  The job returns normally, leaves nothing under [out], and
    prints the notice of the start and a final count that includes the
    file: no line, no value and no count marks it as failed.  The message
    that would do so is printed for a [KeyboardInterrupt] only. *)
Theorem ordinary_failure_leaves_no_record :
  transform usage_job bad_tree
  = (mk_world (files bad_tree) (dirs bad_tree ∪ {[ "out"; "out/a" ]})
       ["Transforming data files from " ++ quoted "src"
        ++ " and writing them to " ++ quoted "out"
        ++ " using 5 parallel processes";
        string_repeat "-" 80;
        "Transforming src/a/y.gz";
        "Transformed 1 data file(s)"],
     Ok tt)
  /\ _transform_file
       (Transformer_init interrupted_transform "src" "out" None None 5)
       "src/a/y.gz" bad_tree
     = (mk_world (files bad_tree) (dirs bad_tree ∪ {[ "out"; "out/a" ]})
          ["Transforming src/a/y.gz";
           "ERROR: Could not transform src/a/y.gz: "],
        Ok tt).
Proof. split; vm_compute; reflexivity. Qed.

(** ** The exact rounding against double precision *)

(** On the values of the scenarios, around the boundaries of a bucket
    and at the ends of the range of timestamps that have a date, the
    double precision evaluation gives the integer of the exact one. *)
Example binary64_agrees_on_samples :
  forallb
    (fun t =>
       match Binary64.int_round t with
       | Some z => Z.eqb z (int_of_float (inject_Z t / inject_Z 60 + 0.5)%Q)
       | None => false
       end)
    [1234567; 50; -100; 1600000000000; 0; 1; 29; 30; 31; 89; 90; 149; 150;
     -1; -29; -30; -31; -89; -90; -91; 253402300799; -62135596800;
     2 ^ 45 - 31; 2 ^ 45 - 30; 2 ^ 45 - 1; - 2 ^ 45 + 30; - 2 ^ 45 + 31]
  = true.
Proof. vm_compute. reflexivity. Qed.

(** * Further properties *)

(** ** The output of [_clean_bigquery_keys] *)

Lemma get_None_keys d k : Dict.get d k = None <-> ~ In k (Dict.keys d).
Proof.
  unfold Dict.keys. induction d as [|[k' v'] d IH]; simpl; [tauto|].
  destruct (String.eqb k' k) eqn:E.
  - apply String.eqb_eq in E. subst. split; [done|]. tauto.
  - apply String.eqb_neq in E. rewrite IH. tauto.
Qed.

Lemma set_absent d k v :
  Dict.get d k = None -> Dict.set d k v = (d ++ [(k, v)])%list.
Proof.
  induction d as [|[k' v'] d IH]; simpl; [done|].
  destruct (String.eqb k' k); [done|]. intros H. by rewrite IH.
Qed.

Lemma loop_without_collision sel exc p items acc :
  NoDup (Dict.keys acc
         ++ List.map (fun kv => INVALID_KEY_CHARS_RE_sub (fst kv))
                     (kept_items sel exc p items))%list ->
  clean_loop (clean_value sel exc) sel exc p items acc
  = (acc ++ List.map (clean_entry sel exc p) (kept_items sel exc p items))%list.
Proof.
  revert acc. induction items as [|[k v] items IH]; intros acc H.
  - simpl. by rewrite app_nil_r.
  - rewrite loop_cons. unfold kept_items in *. cbn [List.filter fst] in *.
    destruct (kept sel exc p k) eqn:Hk; [|by apply IH].
    cbn [List.map fst] in H.
    assert (Hnone : Dict.get acc (INVALID_KEY_CHARS_RE_sub k) = None).
    { apply get_None_keys. intros Hin.
      apply NoDup_app in H as (_ & H & _).
      apply (H (INVALID_KEY_CHARS_RE_sub k)); [by apply list_elem_of_In|].
      apply list_elem_of_In. by left. }
    rewrite (set_absent _ _ _ Hnone), IH.
    + cbn [List.map]. by rewrite <- app_assoc.
    + unfold Dict.keys in *. rewrite List.map_app. cbn [List.map fst].
      by rewrite <- app_assoc.
Qed.

(** X1: where the entries the filter keeps sanitise to distinct keys,
    [_clean_bigquery_keys] returns them one for one and in the order of
    the record: each kept entry under its sanitised key, with its value
    cleaned under its full key. *)
Theorem clean_keeps_order
    (select_fields exclude_fields : fields) (_parent_key : option string)
    (record : dict) :
  NoDup (List.map (fun kv => INVALID_KEY_CHARS_RE_sub (fst kv))
                  (kept_items select_fields exclude_fields _parent_key record)) ->
  _clean_bigquery_keys record select_fields exclude_fields _parent_key
  = List.map (clean_entry select_fields exclude_fields _parent_key)
             (kept_items select_fields exclude_fields _parent_key record).
Proof.
  intros H. unfold _clean_bigquery_keys.
  by rewrite loop_without_collision.
Qed.

Lemma clean_keeps_order_witness :
  _clean_bigquery_keys
    [("b/c", VInt 1); ("drop", VInt 2); ("a", VDict [("x.y", VInt 3)])]
    None (Some {["drop"]}) None
  = [("b_c", VInt 1); ("a", VDict [("x_y", VInt 3)])].
Proof.
  change [("b_c", VInt 1); ("a", VDict [("x_y", VInt 3)])]
    with (List.map (clean_entry None (Some {["drop"]}) None)
            (kept_items None (Some {["drop"]}) None
               [("b/c", VInt 1); ("drop", VInt 2);
                ("a", VDict [("x.y", VInt 3)])])).
  apply clean_keeps_order. apply (bool_decide_unpack _). vm_compute. exact I.
Defined.

Lemma valid_key_sub_id k : valid_key k = true -> INVALID_KEY_CHARS_RE_sub k = k.
Proof.
  induction k as [|c k IH]; simpl; [done|].
  intros H. apply andb_prop in H as [Hc Hk]. by rewrite Hc, IH.
Qed.

Lemma clean_form_set d k v :
  clean_form (VDict d) -> valid_key k = true -> clean_form v ->
  clean_form (VDict (Dict.set d k v)).
Proof.
  intros [Hwf Hd] Hk Hv. split; [by apply wf_set|].
  clear Hwf. induction d as [|[k' v'] d IH]; simpl in *; [done|].
  destruct Hd as (Hk' & Hv' & Hd).
  destruct (String.eqb k' k); simpl; [done|]. repeat split; try done.
  by apply IH.
Qed.

Lemma clean_form_clean_value sel exc v :
  forall p, clean_form (clean_value sel exc p v).
Proof.
  induction v as [| | | | | |d IH] using value_nested_ind; try done.
  intros p. rewrite clean_value_dict. unfold _clean_bigquery_keys.
  assert (Hacc : clean_form (VDict [])).
  { split; [apply NoDup_nil_2|done]. }
  revert Hacc. generalize (@nil (string * value)) as acc.
  induction d as [|[k v] d IHd]; intros acc Hacc; [done|].
  rewrite loop_cons. inversion_clear IH as [|? ? Hv Hd].
  destruct (kept _ _ _ _); [|by apply IHd].
  apply IHd; [done|].
  apply clean_form_set; [done|apply valid_key_sub|apply Hv].
Qed.

Lemma kept_items_no_filter p d : kept_items None None p d = d.
Proof.
  unfold kept_items. induction d as [|kv d IH]; [done|].
  simpl. by rewrite IH.
Qed.

Lemma clean_form_fixed v :
  clean_form v -> forall p, clean_value None None p v = v.
Proof.
  induction v as [| | | | | |d IH] using value_nested_ind; try done.
  intros [Hwf Hd] p. rewrite clean_value_dict. f_equal.
  unfold _clean_bigquery_keys.
  assert (Hkeys : List.map (fun kv : string * value =>
                              INVALID_KEY_CHARS_RE_sub (fst kv)) d
                  = Dict.keys d).
  { clear Hwf IH. unfold Dict.keys.
    induction d as [|[k v] d IHd]; [done|]. simpl in *.
    destruct Hd as (Hk & _ & Hd). by rewrite valid_key_sub_id, IHd. }
  rewrite loop_without_collision.
  2: { rewrite kept_items_no_filter. simpl. by rewrite Hkeys. }
  rewrite kept_items_no_filter. simpl. clear Hwf Hkeys.
  induction d as [|[k v] d IHd]; [done|]. simpl in *.
  destruct Hd as (Hk & Hv & Hd). inversion_clear IH as [|? ? IHv IHrest].
  rewrite IHd by done. unfold clean_entry, cleaned. simpl.
  by rewrite valid_key_sub_id, (IHv Hv).
Qed.

(** X2: whatever the record and the filter, the record
    [_clean_bigquery_keys] returns has distinct keys made of
    [[A-Za-z0-9_]], at the top and in every record nested in it as a
    value, and cleaning it again with no filter gives it back: the
    function is idempotent. *)
Theorem clean_is_idempotent
    (select_fields exclude_fields : fields) (_parent_key p' : option string)
    (record : dict) :
  clean_form
    (VDict (_clean_bigquery_keys record select_fields exclude_fields
                                 _parent_key))
  /\ _clean_bigquery_keys
       (_clean_bigquery_keys record select_fields exclude_fields _parent_key)
       None None p'
     = _clean_bigquery_keys record select_fields exclude_fields _parent_key.
Proof.
  assert (H : clean_form
                (VDict (_clean_bigquery_keys record select_fields
                                             exclude_fields _parent_key))).
  { rewrite <- clean_value_dict. apply clean_form_clean_value. }
  split; [exact H|].
  pose proof (clean_form_fixed _ H p') as Hfix.
  rewrite clean_value_dict in Hfix. by injection Hfix.
Qed.

(** ** Filters that decide alike *)

Lemma full_keys_cons p k v d :
  full_keys p (VDict ((k, v) :: d))
  = (full_key_of p k :: full_keys (Some (full_key_of p k)) v
     ++ full_keys p (VDict d))%list.
Proof. reflexivity. Qed.

Lemma clean_value_agree sel exc sel' exc' v :
  forall p,
    (forall full, In full (full_keys p v) ->
       skipped sel exc full = skipped sel' exc' full) ->
    clean_value sel exc p v = clean_value sel' exc' p v.
Proof.
  induction v as [| | | | | |d IH] using value_nested_ind; try done.
  intros p H. rewrite !clean_value_dict. f_equal.
  unfold _clean_bigquery_keys. generalize (@nil (string * value)) as acc.
  induction d as [|[k v] d IHd]; intros acc; [done|].
  inversion_clear IH as [|? ? IHv IHrest].
  rewrite full_keys_cons in H.
  assert (Hk : kept sel exc p k = kept sel' exc' p k).
  { unfold kept. f_equal. apply H. by left. }
  assert (Hv : cleaned sel exc p k v = cleaned sel' exc' p k v).
  { unfold cleaned. apply IHv. intros full Hin. apply H. right.
    apply in_or_app. by left. }
  rewrite !loop_cons, <- Hk, <- Hv.
  assert (Hd : forall acc',
    clean_loop (clean_value sel exc) sel exc p d acc'
    = clean_loop (clean_value sel' exc') sel' exc' p d acc').
  { apply IHd; [done|]. intros full Hin. apply H. right.
    apply in_or_app. by right. }
  destruct (kept sel exc p k); apply Hd.
Qed.

(** X3: a filter set that is empty counts as no filter, as [None]
    does, since the code tests the set's truth value before it looks a
    key up in it. *)
Theorem empty_filter_is_no_filter
    (select_fields exclude_fields : fields) (_parent_key : option string)
    (record : dict) :
  truthy_fields select_fields = false ->
  truthy_fields exclude_fields = false ->
  _clean_bigquery_keys record select_fields exclude_fields _parent_key
  = _clean_bigquery_keys record None None _parent_key.
Proof.
  intros Hs He.
  cut (clean_value select_fields exclude_fields _parent_key (VDict record)
       = clean_value None None _parent_key (VDict record)).
  { rewrite !clean_value_dict. by intros [= ->]. }
  apply clean_value_agree. intros full _. unfold skipped. by rewrite Hs, He.
Qed.

Lemma empty_filter_is_no_filter_witness :
  _clean_bigquery_keys [("a.b", VInt 1)] (Some ∅) (Some ∅) None
  = _clean_bigquery_keys [("a.b", VInt 1)] None None None.
Proof.
  exact (empty_filter_is_no_filter (Some ∅) (Some ∅) None [("a.b", VInt 1)]
           eq_refl eq_refl).
Defined.

(** X4: selection takes precedence.  With a non-empty [select_fields],
    an [exclude_fields] none of whose members is selected changes
    nothing: every key it would drop is dropped by the selection
    already. *)
Theorem exclusion_is_moot_under_selection
    (select_fields exclude_fields : fields) (_parent_key : option string)
    (record : dict) :
  truthy_fields select_fields = true ->
  (forall x, in_fields x exclude_fields = true ->
             in_fields x select_fields = false) ->
  _clean_bigquery_keys record select_fields exclude_fields _parent_key
  = _clean_bigquery_keys record select_fields None _parent_key.
Proof.
  intros Hs Hdisj.
  cut (clean_value select_fields exclude_fields _parent_key (VDict record)
       = clean_value select_fields None _parent_key (VDict record)).
  { rewrite !clean_value_dict. by intros [= ->]. }
  apply clean_value_agree. intros full _. unfold skipped. rewrite Hs.
  destruct (in_fields full exclude_fields) eqn:Hex.
  - rewrite (Hdisj full Hex). simpl. by destruct (truthy_fields exclude_fields).
  - by rewrite andb_false_r.
Qed.

Lemma exclusion_is_moot_under_selection_witness :
  _clean_bigquery_keys [("a", VInt 1); ("b", VInt 2)]
                       (Some {["a"]}) (Some {["b"]}) None
  = _clean_bigquery_keys [("a", VInt 1); ("b", VInt 2)]
                         (Some {["a"]}) None None.
Proof.
  apply (exclusion_is_moot_under_selection (Some {["a"]}) (Some {["b"]}) None
           [("a", VInt 1); ("b", VInt 2)]).
  - reflexivity.
  - intros x Hx. simpl in *. apply bool_decide_eq_true in Hx.
    apply bool_decide_eq_false. set_solver.
Defined.

(** X5: selecting every path of a record selects the record.  When the
    full key of every key of the record, at every depth reached through
    nested records, is in [select_fields] and not in [exclude_fields],
    the result is that of cleaning with no filter: the record itself, its
    keys sanitised. *)
Theorem full_selection_keeps_everything
    (select_fields exclude_fields : fields) (_parent_key : option string)
    (record : dict) :
  (forall full, In full (full_keys _parent_key (VDict record)) ->
     in_fields full select_fields = true
     /\ in_fields full exclude_fields = false) ->
  _clean_bigquery_keys record select_fields exclude_fields _parent_key
  = _clean_bigquery_keys record None None _parent_key.
Proof.
  intros H.
  cut (clean_value select_fields exclude_fields _parent_key (VDict record)
       = clean_value None None _parent_key (VDict record)).
  { rewrite !clean_value_dict. by intros [= ->]. }
  apply clean_value_agree. intros full Hin. destruct (H full Hin) as [Hs He].
  unfold skipped. rewrite Hs, He. simpl. by rewrite !andb_false_r.
Qed.

Lemma full_selection_keeps_everything_witness :
  _clean_bigquery_keys
    [("metric", VDict [("tenant", VStr "t")]); ("id", VInt 7)]
    (Some {["metric"; "metric.tenant"; "id"]}) None None
  = [("metric", VDict [("tenant", VStr "t")]); ("id", VInt 7)].
Proof.
  change [("metric", VDict [("tenant", VStr "t")]); ("id", VInt 7)]
    with (_clean_bigquery_keys
            [("metric", VDict [("tenant", VStr "t")]); ("id", VInt 7)]
            None None None) at 2.
  apply full_selection_keeps_everything.
  intros full Hin. split; [|reflexivity].
  simpl in Hin. destruct Hin as [<-|[<-|[<-|[]]]]; reflexivity.
Defined.

(** ** Rounding to the unit *)

(** X6: from [-30] on (and below 2^45, where double precision is
    exact) an integer is rounded to the nearest multiple of 60, a half
    going up: the result is the multiple of 60 in the interval
    [(t - 30, t + 30]], and a non-negative multiple of 60 is left as it
    is. *)
Theorem round_to_unit_nearest (t r : Z) :
  -30 <= t < 2 ^ 45 ->
  round_to_unit (VInt t) 60 = Ok r ->
  r mod 60 = 0 /\ t - 30 < r <= t + 30
  /\ (forall m, m mod 60 = 0 -> t - 30 < m <= t + 30 -> m = r)
  /\ round_to_unit (VInt r) 60 = Ok r.
Proof.
  intros Ht Hr. rewrite round_to_unit_int in Hr. injection Hr as <-.
  rewrite Z.quot_div_nonneg by lia.
  pose proof (Z.div_mod (t + 30) 60 ltac:(lia)) as Hdiv.
  pose proof (Z.mod_pos_bound (t + 30) 60 ltac:(lia)) as Hmod.
  repeat split.
  - by rewrite Z.mod_mul.
  - lia.
  - lia.
  - intros m Hm Hrange.
    pose proof (Z.div_mod m 60 ltac:(lia)) as Hm'. rewrite Hm in Hm'.
    assert (m / 60 = (t + 30) / 60) by lia. lia.
  - rewrite round_to_unit_int. f_equal.
    assert (0 <= (t + 30) / 60) by (apply Z.div_pos; lia).
    rewrite Z.quot_div_nonneg by lia.
    replace ((t + 30) / 60 * 60 + 30) with (30 + (t + 30) / 60 * 60) by lia.
    rewrite Z.div_add by lia. change (30 / 60) with 0. lia.
Qed.

Lemma round_to_unit_nearest_witness :
  1234560 mod 60 = 0 /\ 1234567 - 30 < 1234560 <= 1234567 + 30
  /\ (forall m, m mod 60 = 0 -> 1234567 - 30 < m <= 1234567 + 30 -> m = 1234560)
  /\ round_to_unit (VInt 1234560) 60 = Ok 1234560.
Proof.
  apply (round_to_unit_nearest 1234567 1234560); [lia|reflexivity].
Defined.

Lemma round_to_unit_multiple x r :
  round_to_unit x 60 = Ok r -> r mod 60 = 0.
Proof.
  unfold round_to_unit. destruct (py_truediv x 60); [|done].
  simpl. intros [= <-]. apply Z.mod_mul. lia.
Qed.

Lemma rounded_delta_bounds d r :
  rounded_delta d = Ok r -> r mod 60 = 0 /\ 60 <= r.
Proof.
  unfold rounded_delta. destruct (py_int d) as [n|]; [|done]. cbn [bind].
  destruct (round_to_unit (VInt n) 60) as [r'|] eqn:Hr; [|done]. cbn [bind].
  intros [= <-]. apply round_to_unit_multiple in Hr.
  split; [|lia]. destruct (Z.max_spec r' 60) as [[_ ->]|[_ ->]]; done.
Qed.

(** X7: after a call that returns, the caller's record holds a
    [timestamp] that is a multiple of 60 and, in [metric], a
    [_deltaSeconds] that is a multiple of 60 and at least 60, whatever
    the types the two fields had. *)
Theorem transform_record_leaves_whole_minutes
    (US_Pacific : Z -> Z) (select_fields exclude_fields : fields)
    (record out : dict) :
  snd (transform_usage_metrics_record US_Pacific select_fields exclude_fields
         record) = Ok out ->
  exists ts delta,
    lookup_path
      (VDict (fst (transform_usage_metrics_record US_Pacific select_fields
                     exclude_fields record))) ["timestamp"]
    = Some (VInt ts)
    /\ lookup_path
         (VDict (fst (transform_usage_metrics_record US_Pacific select_fields
                        exclude_fields record))) ["metric"; "_deltaSeconds"]
       = Some (VInt delta)
    /\ ts mod 60 = 0 /\ delta mod 60 = 0 /\ 60 <= delta.
Proof.
  intros Hrun.
  apply transform_record_success in Hrun
    as (t & ts & metric & d & delta & dt & _ & Hts & _ & _ & Hdelta & _ & -> & _).
  exists ts, delta. apply round_to_unit_multiple in Hts.
  apply rounded_delta_bounds in Hdelta as [? ?].
  repeat split; try done.
  - cbn [lookup_path]. unfold mutated.
    rewrite !get_set_ne by done. by rewrite get_set_eq.
  - cbn [lookup_path]. unfold mutated.
    rewrite !get_set_ne by done. rewrite get_set_eq. by rewrite get_set_eq.
Qed.

Lemma transform_record_leaves_whole_minutes_witness :
  exists ts delta,
    lookup_path
      (VDict (fst (transform_usage_metrics_record PST None None
                     scenario_record))) ["timestamp"]
    = Some (VInt ts)
    /\ lookup_path
         (VDict (fst (transform_usage_metrics_record PST None None
                        scenario_record))) ["metric"; "_deltaSeconds"]
       = Some (VInt delta)
    /\ ts mod 60 = 0 /\ delta mod 60 = 0 /\ 60 <= delta.
Proof.
  eapply (transform_record_leaves_whole_minutes PST None None scenario_record).
  reflexivity.
Defined.

(** ** The record transform: what the filter cannot change *)

(** X8: the field sets bear on the last step only.  Whatever they are,
    the call leaves the caller's record in the same state and raises in
    the same cases the same exception; when it returns, the result is the
    cleaning, with the field sets, of that one mutated record.  A field
    that is filtered out must still be present and well typed. *)
Theorem filter_does_not_change_effects
    (US_Pacific : Z -> Z) (sel exc sel' exc' : fields) (record : dict) :
  fst (transform_usage_metrics_record US_Pacific sel exc record)
  = fst (transform_usage_metrics_record US_Pacific sel' exc' record)
  /\ (forall e,
        snd (transform_usage_metrics_record US_Pacific sel exc record)
        = Raise e
        <-> snd (transform_usage_metrics_record US_Pacific sel' exc' record)
            = Raise e)
  /\ (forall out,
        snd (transform_usage_metrics_record US_Pacific sel exc record) = Ok out
        -> out = _clean_bigquery_keys
                   (fst (transform_usage_metrics_record US_Pacific sel' exc'
                           record))
                   sel exc None).
Proof.
  rewrite !transform_record_run. cbv zeta.
  destruct (_ <- Dict.getitem record "timestamp" ;; _)%py as [ts|e1];
    [|by repeat split].
  destruct (_ <- Dict.getitem record "metric" ;; _)%py as [delta|e1];
    [|by repeat split].
  destruct (Dict.get record "metric") as [[]|]; try by repeat split.
  destruct (fromtimestamp US_Pacific ts) as [dt|e1]; [|by repeat split].
  simpl. repeat split; try done. by intros out [= <-].
Qed.





(** ** Paths *)

Lemma append_cons c (s b : string) : String c s ++ b = String c (s ++ b).
Proof. reflexivity. Qed.

Lemma append_nil_l (s : string) : "" ++ s = s.
Proof. reflexivity. Qed.

Lemma append_nil_r (s : string) : s ++ "" = s.
Proof. induction s as [|c s IH]; [done|]. by rewrite append_cons, IH. Qed.

Lemma append_assoc (a b c : string) : (a ++ b) ++ c = a ++ (b ++ c).
Proof. induction a as [|x a IH]; [done|]. by rewrite !append_cons, IH. Qed.

Lemma length_append (a b : string) :
  String.length (a ++ b) = (String.length a + String.length b)%nat.
Proof.
  induction a as [|x a IH]; [done|]. rewrite append_cons. simpl. by rewrite IH.
Qed.

Lemma split_last_slash_no_slash t :
  no_slash t = true -> split_last_slash t = ("", t).
Proof.
  induction t as [|c t IHt]; [done|].
  simpl. intros Ht. apply andb_prop in Ht as [Hc Ht]. rewrite (IHt Ht).
  apply negb_true_iff in Hc. by rewrite Hc.
Qed.

Lemma split_last_slash_spec p :
  p = fst (split_last_slash p) ++ snd (split_last_slash p)
  /\ no_slash (snd (split_last_slash p)) = true
  /\ (fst (split_last_slash p) = ""
      \/ endswith_slash (fst (split_last_slash p)) = true).
Proof.
  induction p as [|c p (IH1 & IH2 & IH3)]; [by repeat split; try left|].
  cbn [split_last_slash].
  destruct (split_last_slash p) as [h t]. cbn [fst snd] in *.
  destruct h as [|c' h].
  - rewrite append_nil_l in IH1. subst t.
    destruct (Ascii.eqb c "/") eqn:E; cbn [fst snd].
    + split; [reflexivity|]. split; [done|]. right. simpl. done.
    + split; [reflexivity|]. split; [|by left]. simpl. by rewrite E.
  - cbn [fst snd]. split; [by rewrite append_cons, <- IH1|]. split; [done|].
    right. destruct IH3 as [|IH3]; [done|]. done.
Qed.

Lemma split_last_slash_app a t :
  no_slash t = true -> a = "" \/ endswith_slash a = true ->
  split_last_slash (a ++ t) = (a, t).
Proof.
  intros Ht. induction a as [|c a IH]; intros Ha.
  - rewrite append_nil_l. by apply split_last_slash_no_slash.
  - destruct Ha as [|Ha]; [done|]. rewrite append_cons.
    cbn [split_last_slash].
    destruct a as [|c' a].
    + rewrite append_nil_l, (split_last_slash_no_slash t Ht).
      simpl in Ha. by rewrite Ha.
    + rewrite IH; [done|]. by right.
Qed.

Lemma rstrip_slash_not_endswith s : endswith_slash (rstrip_slash s) = false.
Proof.
  induction s as [|c s IH]; simpl; [done|].
  destruct (rstrip_slash s) as [|c' s'] eqn:E.
  - destruct (Ascii.eqb c "/") eqn:Ec; simpl; [done|]. by rewrite Ec.
  - simpl in *. done.
Qed.

Lemma rstrip_slash_fixed s : endswith_slash s = false -> rstrip_slash s = s.
Proof.
  induction s as [|c s IH]; simpl; [done|].
  destruct s as [|c' s].
  - simpl. intros ->. done.
  - intros H. rewrite (IH H). done.
Qed.

Lemma rstrip_slash_app_slash s : rstrip_slash (s ++ "/") = rstrip_slash s.
Proof.
  induction s as [|c s IH]; [done|].
  rewrite append_cons. simpl. by rewrite IH.
Qed.

Lemma all_slashes_rstrip s :
  all_slashes s = false -> all_slashes (rstrip_slash s) = false.
Proof.
  induction s as [|c s IH]; simpl; [done|].
  destruct (Ascii.eqb c "/") eqn:Ec; simpl.
  - intros H. specialize (IH H).
    destruct (rstrip_slash s) as [|c' s'] eqn:E; [done|].
    simpl. by rewrite Ec.
  - intros _. destruct (rstrip_slash s) as [|c' s']; simpl; by rewrite Ec.
Qed.

Lemma all_slashes_app_slash s : all_slashes (s ++ "/") = all_slashes s.
Proof.
  induction s as [|c s IH]; [done|].
  rewrite append_cons. simpl. by rewrite IH.
Qed.

Lemma endswith_slash_app_slash s : endswith_slash (s ++ "/") = true.
Proof.
  induction s as [|c s IH]; [done|].
  rewrite append_cons. simpl.
  destruct (s ++ "/") eqn:E; [by destruct s|done].
Qed.

Lemma all_slashes_endswith s :
  all_slashes s = true -> s <> "" -> endswith_slash s = true.
Proof.
  induction s as [|c s IH]; simpl; [done|].
  intros H _. apply andb_prop in H as [Hc Hs].
  destruct s as [|c' s]; [done|]. by apply IH.
Qed.

Lemma no_slash_startswith b : no_slash b = true -> startswith b "/" = false.
Proof.
  unfold startswith. destruct b as [|c b]; [done|]. cbn [String.prefix no_slash].
  intros H. apply andb_prop in H as [Hc _]. apply negb_true_iff in Hc.
  destruct (ascii_dec "/" c) as [E|]; [|done].
  subst c. by rewrite Ascii.eqb_refl in Hc.
Qed.

Lemma os_path_join_no_slash D b :
  no_slash b = true ->
  exists a, os_path_join D b = a ++ b
            /\ (a = "" \/ endswith_slash a = true)
            /\ (a = D \/ (a = D ++ "/" /\ D <> "" /\ endswith_slash D = false)).
Proof.
  intros Hb. unfold os_path_join. rewrite (no_slash_startswith b Hb).
  destruct (String.eqb D "") eqn:E.
  - apply String.eqb_eq in E. subst D. exists "". simpl. by repeat split; left.
  - simpl. destruct (endswith_slash D) eqn:Es.
    + exists D. split; [done|]. split; [by right|by left].
    + exists (D ++ "/"). split; [by rewrite append_assoc|].
      split; [right; apply endswith_slash_app_slash|].
      right. split; [done|]. split; [|done]. by apply String.eqb_neq.
Qed.

Lemma basename_no_slash p : no_slash (os_path_basename p) = true.
Proof. apply split_last_slash_spec. Qed.

Lemma dirname_not_endswith p :
  all_slashes (os_path_dirname p) = false ->
  endswith_slash (os_path_dirname p) = false.
Proof.
  unfold os_path_dirname.
  destruct (negb (String.eqb (fst (split_last_slash p)) "")
            && negb (all_slashes (fst (split_last_slash p)))) eqn:E.
  - intros _. apply rstrip_slash_not_endswith.
  - intros H. apply andb_false_iff in E as [E|E].
    + apply negb_false_iff, String.eqb_eq in E. by rewrite E.
    + apply negb_false_iff in E. congruence.
Qed.

Lemma temp_file_parts (output_file : string) :
  os_path_dirname (temp_file_of output_file) = os_path_dirname output_file
  /\ os_path_basename (temp_file_of output_file)
     = "." ++ os_path_basename output_file.
Proof.
  set (b := "." ++ os_path_basename output_file).
  assert (Hb : no_slash b = true).
  { unfold b. rewrite append_cons, append_nil_l. simpl.
    apply basename_no_slash. }
  destruct (os_path_join_no_slash (os_path_dirname output_file) b Hb)
    as (a & Hjoin & Ha & HaD).
  assert (Hsplit : split_last_slash (temp_file_of output_file) = (a, b)).
  { unfold temp_file_of. fold b. rewrite Hjoin.
    by apply split_last_slash_app. }
  split; [|unfold os_path_basename; by rewrite Hsplit].
  unfold os_path_dirname at 1. rewrite Hsplit. cbn [fst].
  destruct HaD as [->|(-> & Hne & Hends)].
  - destruct Ha as [->|Ha]; [done|].
    destruct (all_slashes (os_path_dirname output_file)) eqn:Hall.
    + by rewrite andb_false_r.
    + by rewrite (dirname_not_endswith _ Hall) in Ha.
  - assert (Hall : all_slashes (os_path_dirname output_file) = false).
    { destruct (all_slashes (os_path_dirname output_file)) eqn:Hall; [|done].
      by rewrite (all_slashes_endswith _ Hall Hne) in Hends. }
    rewrite all_slashes_app_slash, Hall.
    assert (Hnz : String.eqb (os_path_dirname output_file ++ "/") "" = false).
    { apply String.eqb_neq. by destruct (os_path_dirname output_file). }
    rewrite Hnz. simpl.
    by rewrite rstrip_slash_app_slash, rstrip_slash_fixed.
Qed.

Lemma temp_file_ne (output_file : string) :
  temp_file_of output_file <> output_file.
Proof.
  intros Heq. destruct (temp_file_parts output_file) as [_ Hbase].
  rewrite Heq in Hbase. apply (f_equal String.length) in Hbase.
  rewrite length_append in Hbase. simpl in Hbase. lia.
Qed.

(** X11: the temp file is a hidden sibling of the output file.
    Whatever the output path, the temp path lies in the same directory,
    its name is the name of the output file with a dot before it, and it
    is never the output path itself. *)
Theorem temp_file_is_hidden_sibling (output_file : string) :
  os_path_dirname (temp_file_of output_file) = os_path_dirname output_file
  /\ os_path_basename (temp_file_of output_file)
     = "." ++ os_path_basename output_file
  /\ temp_file_of output_file <> output_file.
Proof.
  destruct (temp_file_parts output_file) as [Hdir Hbase].
  split; [exact Hdir|]. split; [exact Hbase|]. apply temp_file_ne.
Qed.

(** X12: for an output path made of a directory and a file name, the
    temp path is that directory, a separator, a dot and the name. *)
Theorem temp_file_of_named (d name : string) :
  d <> "" -> endswith_slash d = false -> no_slash name = true ->
  temp_file_of (d ++ "/" ++ name) = d ++ "/." ++ name.
Proof.
  intros Hd Hends Hname.
  assert (Hsplit : split_last_slash (d ++ "/" ++ name) = (d ++ "/", name)).
  { rewrite <- append_assoc. apply split_last_slash_app; [done|].
    right. apply endswith_slash_app_slash. }
  assert (Hall : all_slashes d = false).
  { destruct (all_slashes d) eqn:Hall; [|done].
    by rewrite (all_slashes_endswith _ Hall Hd) in Hends. }
  unfold temp_file_of, os_path_dirname, os_path_basename. rewrite Hsplit.
  cbn [fst snd]. rewrite all_slashes_app_slash, Hall.
  assert (Hnz : String.eqb (d ++ "/") "" = false).
  { apply String.eqb_neq. by destruct d. }
  rewrite Hnz. cbn [negb andb].
  rewrite rstrip_slash_app_slash, rstrip_slash_fixed by done.
  unfold os_path_join.
  assert (Hstart : startswith ("." ++ name) "/" = false) by done.
  rewrite Hstart. apply String.eqb_neq in Hd. rewrite Hd, Hends. simpl.
  done.
Qed.

Lemma temp_file_of_named_witness :
  temp_file_of ("out/a" ++ "/" ++ "y.gz") = "out/a" ++ "/." ++ "y.gz".
Proof. by apply (temp_file_of_named "out/a" "y.gz"). Defined.

(** ** The output path of an input file *)

Lemma string_drop_app (s t : string) (n : nat) :
  string_drop (String.length s + n) (s ++ t) = string_drop n t.
Proof.
  induction s as [|c s IH]; [by rewrite append_nil_l|].
  rewrite append_cons. simpl. exact IH.
Qed.

Lemma append_cancel_l (a b1 b2 : string) : a ++ b1 = a ++ b2 -> b1 = b2.
Proof.
  induction a as [|c a IH]; [by rewrite !append_nil_l|].
  rewrite !append_cons. intros [= H]. by apply IH.
Qed.

Lemma os_path_join_inj a b1 b2 :
  startswith b1 "/" = false -> startswith b2 "/" = false ->
  os_path_join a b1 = os_path_join a b2 -> b1 = b2.
Proof.
  unfold os_path_join. intros -> ->.
  destruct (String.eqb a "" || endswith_slash a).
  - apply append_cancel_l.
  - intros H. apply append_cancel_l in H. by apply append_cancel_l in H.
Qed.

(** X13: the output path is the sink directory joined with what follows
    the name of the source directory and one more character in the input
    path, whatever that character is.  For a source directory named
    without a trailing slash that character is the separator, and the
    output path mirrors the path below the source directory; for one
    named with a trailing slash it is the first character of the relative
    path, which is lost. *)
Theorem output_file_drops_one_character
    (self : Transformer) (c : ascii) (rel : string) :
  output_file_of self (source_dir self ++ String c rel)
  = os_path_join (sink_dir self) rel.
Proof.
  unfold output_file_of. f_equal.
  by rewrite string_drop_app.
Qed.

(** X14: below a source directory named without a trailing slash, two
    different input files have different output paths. *)
Theorem distinct_inputs_have_distinct_outputs
    (self : Transformer) (rel1 rel2 : string) :
  startswith rel1 "/" = false -> startswith rel2 "/" = false ->
  rel1 <> rel2 ->
  output_file_of self (source_dir self ++ "/" ++ rel1)
  <> output_file_of self (source_dir self ++ "/" ++ rel2).
Proof.
  intros H1 H2 Hne Heq. apply Hne. revert Heq. unfold output_file_of.
  rewrite !string_drop_app. simpl. by apply os_path_join_inj.
Qed.

Lemma distinct_inputs_have_distinct_outputs_witness :
  output_file_of usage_job ("src" ++ "/" ++ "a/x.gz")
  <> output_file_of usage_job ("src" ++ "/" ++ "a/y.gz").
Proof.
  apply (distinct_inputs_have_distinct_outputs usage_job "a/x.gz" "a/y.gz");
    [reflexivity|reflexivity|discriminate].
Defined.

(** ** [transform_usage_metrics]: what the output file holds *)

Lemma set_files_id w : set_files (fun fs => fs) w = w.
Proof. by destruct w. Qed.

Lemma for_each_lines US_Pacific output_file sel exc lines w c :
  files w !! output_file = Some c ->
  for_each lines (fun line =>
    record <- StateE.lift (json_loads line) ;;
    clean_record <- StateE.lift
      (call_record_transform US_Pacific record sel exc) ;;
    fp_write output_file (Some (VDict clean_record)))%st w
  = (set_files
       <[output_file := (c ++ fst (transform_lines US_Pacific sel exc lines))%list]>
       w,
     snd (transform_lines US_Pacific sel exc lines)).
Proof.
  revert w c. induction lines as [|l lines IH]; intros w c Hc.
  - simpl. unfold StateE.ret. rewrite app_nil_r.
    unfold set_files. rewrite insert_id by done. by destruct w.
  - cbn [for_each transform_lines].
    unfold StateE.bind at 1. unfold StateE.bind at 1 2, StateE.lift.
    destruct (json_loads l) as [record|e]; cbn [bind].
    2: { rewrite app_nil_r. unfold set_files. rewrite insert_id by done.
         by destruct w. }
    destruct (call_record_transform US_Pacific record sel exc)
      as [clean_record|e].
    2: { cbn [fst snd]. rewrite app_nil_r. unfold set_files.
         rewrite insert_id by done. by destruct w. }
    unfold fp_write, StateE.modify.
    rewrite (IH _ (c ++ [Some (VDict clean_record)])%list).
    + destruct (transform_lines US_Pacific sel exc lines) as [written r].
      cbn [fst snd]. unfold set_files. cbn [files dirs stdout].
      rewrite insert_insert_eq, <- app_assoc. done.
    + cbn [set_files files]. rewrite Hc. cbn [default].
      by rewrite lookup_insert_eq.
Qed.

Lemma transform_lines_length US_Pacific sel exc lines :
  (List.length (fst (transform_lines US_Pacific sel exc lines))
   <= List.length lines)%nat
  /\ (snd (transform_lines US_Pacific sel exc lines) = Ok tt
      <-> List.length (fst (transform_lines US_Pacific sel exc lines))
          = List.length lines).
Proof.
  induction lines as [|l lines [IHle IHiff]]; [done|].
  cbn [transform_lines].
  destruct (record <- json_loads l;;
            call_record_transform US_Pacific record sel exc)%py.
  - destruct (transform_lines US_Pacific sel exc lines) as [written r].
    cbn [fst snd List.length] in *. split; [lia|].
    rewrite IHiff. split; [by intros ->|by intros [= ->]].
  - cbn [fst snd List.length]. split; [lia|]. split; [done|lia].
Qed.

Lemma transform_usage_metrics_run
    US_Pacific input_file output_file sel exc lines w :
  input_file <> output_file ->
  is_dir w output_file = false ->
  String.eqb (os_path_dirname output_file) ""
  || is_dir w (os_path_dirname output_file) = true ->
  files w !! input_file = Some lines ->
  transform_usage_metrics US_Pacific input_file output_file sel exc w
  = (set_files
       <[output_file := fst (transform_lines US_Pacific sel exc lines)]> w,
     snd (transform_lines US_Pacific sel exc lines)).
Proof.
  intros Hne Hdir Hparent Hin.
  unfold transform_usage_metrics.
  unfold StateE.bind at 1. unfold gzip_open_wt.
  rewrite Hdir, Hparent. cbn [negb orb].
  unfold StateE.bind at 1. unfold gzip_open_rt.
  cbn [set_files files]. rewrite lookup_insert_ne, Hin by done.
  rewrite (for_each_lines _ _ _ _ _ _ []).
  - unfold set_files. cbn [files dirs stdout app].
    by rewrite insert_insert_eq.
  - cbn [set_files files]. by rewrite lookup_insert_eq.
Qed.

(** X15: what [transform_usage_metrics] leaves in the output file.  When
    the output file can be opened and is not the input file, the run
    replaces its content by the transformed records of the lines before
    the first one that fails to decode or to transform, in their order,
    and changes nothing else; it returns when no line fails and raises
    the exception of the failing line otherwise.  The output has one line
    for each line of the input exactly when the run returns: a failure
    leaves a shorter file behind. *)
Theorem transform_usage_metrics_output
    (US_Pacific : Z -> Z) (input_file output_file : string)
    (sel exc : fields) (lines : list line) (w : world) :
  input_file <> output_file ->
  is_dir w output_file = false ->
  String.eqb (os_path_dirname output_file) ""
  || is_dir w (os_path_dirname output_file) = true ->
  files w !! input_file = Some lines ->
  transform_usage_metrics US_Pacific input_file output_file sel exc w
  = (set_files
       <[output_file := fst (transform_lines US_Pacific sel exc lines)]> w,
     snd (transform_lines US_Pacific sel exc lines))
  /\ (snd (transform_usage_metrics US_Pacific input_file output_file sel exc w)
      = Ok tt
      <-> List.length (fst (transform_lines US_Pacific sel exc lines))
          = List.length lines).
Proof.
  intros Hne Hdir Hparent Hin.
  rewrite (transform_usage_metrics_run _ _ _ _ _ lines) by done.
  split; [done|]. cbn [snd]. apply transform_lines_length.
Qed.

Lemma transform_usage_metrics_output_witness :
  transform_usage_metrics PST "src/a/y.gz" "out.gz" None None bad_tree
  = (set_files
       <["out.gz" := [Some (VDict
            [("timestamp", VInt 1234560);
             ("metric", VDict [("_deltaSeconds", VInt 60);
                               ("statefulset_kubernetes_io_pod_name", VStr "p")]);
             ("datetime_pt", VStr "1970-01-14 22:56:00");
             ("date_pt", VStr "1970-01-14")])]]> bad_tree,
     Raise KeyError).
Proof.
  refine (proj1 (transform_usage_metrics_output PST "src/a/y.gz" "out.gz"
                   None None
                   [Some (VDict scenario_record);
                    Some (VDict record_without_timestamp)]
                   bad_tree _ _ _ _));
    [discriminate|reflexivity|reflexivity|reflexivity].
Defined.

(** X16: the output file is opened before the input file.  When the
    input file is missing the run raises [OSError] and leaves an empty
    output file behind. *)
Theorem missing_input_leaves_empty_output
    (US_Pacific : Z -> Z) (input_file output_file : string)
    (sel exc : fields) (w : world) :
  input_file <> output_file ->
  is_dir w output_file = false ->
  String.eqb (os_path_dirname output_file) ""
  || is_dir w (os_path_dirname output_file) = true ->
  files w !! input_file = None ->
  transform_usage_metrics US_Pacific input_file output_file sel exc w
  = (set_files <[output_file := []]> w, Raise OSError).
Proof.
  intros Hne Hdir Hparent Hin.
  unfold transform_usage_metrics.
  unfold StateE.bind at 1. unfold gzip_open_wt.
  rewrite Hdir, Hparent. cbn [negb orb].
  unfold StateE.bind at 1. unfold gzip_open_rt.
  cbn [set_files files]. by rewrite lookup_insert_ne, Hin.
Qed.

Lemma missing_input_leaves_empty_output_witness :
  transform_usage_metrics PST "src/a/none.gz" "out.gz" None None good_tree
  = (set_files <["out.gz" := []]> good_tree, Raise OSError).
Proof.
  apply (missing_input_leaves_empty_output PST "src/a/none.gz" "out.gz"
           None None good_tree);
    [discriminate|reflexivity|reflexivity|reflexivity].
Defined.

(** ** The worker: what it raises and what it touches *)

Lemma os_unlink_run p w :
  (snd (os_unlink p w) = Ok tt \/ snd (os_unlink p w) = Raise OSError)
  /\ dirs (fst (os_unlink p w)) = dirs w
  /\ stdout (fst (os_unlink p w)) = stdout w
  /\ forall q, q <> p -> files (fst (os_unlink p w)) !! q = files w !! q.
Proof.
  unfold os_unlink. destruct (is_file w p); cbn [fst snd set_files files dirs stdout].
  - split; [by left|]. split; [done|]. split; [done|].
    intros q Hq. by rewrite lookup_delete_ne.
  - split; [by right|]. done.
Qed.

Lemma except_block_run input_file temp_file output_file e w :
  snd (except_block input_file temp_file output_file e w) = Ok tt
  /\ dirs (fst (except_block input_file temp_file output_file e w)) = dirs w
  /\ forall q, q <> temp_file -> q <> output_file ->
       files (fst (except_block input_file temp_file output_file e w)) !! q
       = files w !! q.
Proof.
  set (w1 := fst ((match e with
                   | KeyboardInterrupt =>
                       print ("ERROR: Could not transform " ++ input_file ++ ": ")
                   | _ => StateE.ret tt
                   end) w)).
  assert (Hw1 : files w1 = files w /\ dirs w1 = dirs w).
  { unfold w1. by destruct e. }
  destruct Hw1 as [Hf Hd].
  assert (Hrun :
    except_block input_file temp_file output_file e w
    = StateE.try_except (os_unlink temp_file ;;; os_unlink output_file)%st
        is_Exception (fun _ => StateE.ret tt) w1).
  { unfold except_block, StateE.bind, w1. by destruct e. }
  rewrite Hrun. clear Hrun.
  unfold StateE.try_except, StateE.bind.
  destruct (os_unlink_run temp_file w1) as (Hr1 & Hd1 & _ & Hf1).
  destruct (os_unlink temp_file w1) as [w2 r2]. cbn [fst snd] in *.
  destruct Hr1 as [->| ->].
  - destruct (os_unlink_run output_file w2) as (Hr2 & Hd2 & _ & Hf2).
    destruct (os_unlink output_file w2) as [w3 r3]. cbn [fst snd] in *.
    destruct Hr2 as [->| ->]; cbn [is_Exception StateE.ret fst snd].
    + split; [done|]. split; [congruence|].
      intros q Hq1 Hq2. rewrite Hf2, Hf1 by done. by rewrite Hf.
    + split; [done|]. split; [congruence|].
      intros q Hq1 Hq2. rewrite Hf2, Hf1 by done. by rewrite Hf.
  - cbn [is_Exception StateE.ret fst snd].
    split; [done|]. split; [congruence|].
    intros q Hq1 Hq2. rewrite Hf1 by done. by rewrite Hf.
Qed.

Lemma os_makedirs_run name w :
  (snd (os_makedirs name w) = Ok tt \/ snd (os_makedirs name w) = Raise OSError)
  /\ dirs w ⊆ dirs (fst (os_makedirs name w)).
Proof.
  unfold os_makedirs. destruct (String.eqb name "" || _); cbn [fst snd dirs].
  - by split; [right|].
  - split; [by left|]. set_solver.
Qed.

Lemma os_rename_run src dst w :
  (snd (os_rename src dst w) = Ok tt \/ snd (os_rename src dst w) = Raise OSError)
  /\ dirs (fst (os_rename src dst w)) = dirs w
  /\ forall q, q <> src -> q <> dst ->
       files (fst (os_rename src dst w)) !! q = files w !! q.
Proof.
  unfold os_rename. destruct (files w !! src); [|by split; [right|]].
  destruct (is_dir w dst); [by split; [right|]|].
  cbn [fst snd set_files files dirs]. split; [by left|]. split; [done|].
  intros q H1 H2. by rewrite lookup_insert_ne, lookup_delete_ne.
Qed.

Lemma try_block_raise_source self input_file temp_file output_file w e :
  snd (try_block self input_file temp_file output_file w) = Raise e ->
  e = OSError
  \/ exists w1,
       snd (_transform self input_file temp_file
              (select_fields self) (exclude_fields self) w1) = Raise e.
Proof.
  unfold try_block, StateE.bind.
  destruct (os_makedirs_run (os_path_dirname temp_file) w) as [Hr1 _].
  destruct (os_makedirs (os_path_dirname temp_file) w) as [w1 r1].
  cbn [snd] in Hr1. destruct Hr1 as [->| ->]; [|intros [= <-]; by left].
  destruct (_transform self input_file temp_file (select_fields self)
              (exclude_fields self) w1) as [w2 [[]|e2]] eqn:Ht.
  - destruct (os_rename_run temp_file output_file w2) as [Hr3 _].
    destruct (os_rename temp_file output_file w2) as [w3 r3].
    cbn [snd] in Hr3. destruct Hr3 as [->| ->]; [done|intros [= <-]; by left].
  - intros [= <-]. right. exists w1. by rewrite Ht.
Qed.

Lemma try_block_frame self input_file temp_file output_file w q :
  writes_only_output (_transform self) ->
  q <> temp_file -> q <> output_file ->
  files (fst (try_block self input_file temp_file output_file w)) !! q
  = files w !! q.
Proof.
  intros Hframe Hq1 Hq2. unfold try_block, StateE.bind.
  destruct (os_makedirs_files (os_path_dirname temp_file) w) as [Hf1 _].
  destruct (os_makedirs (os_path_dirname temp_file) w) as [w1 [[]|e1]];
    cbn [fst] in Hf1; [|by rewrite <- Hf1].
  destruct (Hframe input_file temp_file (select_fields self)
              (exclude_fields self) w1) as [Hf2 _].
  destruct (_transform self input_file temp_file (select_fields self)
              (exclude_fields self) w1) as [w2 [[]|e2]]; cbn [fst] in *.
  - destruct (os_rename_run temp_file output_file w2) as (_ & _ & Hf3).
    destruct (os_rename temp_file output_file w2) as [w3 [[]|e3]];
      cbn [fst] in *; rewrite Hf3, Hf2, Hf1; done.
  - rewrite Hf2, Hf1; done.
Qed.

Lemma transform_file_frame self input_file w q :
  writes_only_output (_transform self) ->
  q <> output_file_of self input_file ->
  q <> temp_file_of (output_file_of self input_file) ->
  files (fst (_transform_file self input_file w)) !! q = files w !! q.
Proof.
  intros Hframe Hq1 Hq2.
  destruct (os_path_exists w (output_file_of self input_file)) eqn:Hex.
  - by rewrite transform_file_skips.
  - rewrite transform_file_run by done.
    pose proof (try_block_frame self input_file
                  (temp_file_of (output_file_of self input_file))
                  (output_file_of self input_file)
                  (mk_world (files w) (dirs w)
                            (stdout w ++ [start_notice input_file])%list)
                  q Hframe Hq2 Hq1) as Hf.
    destruct (try_block _ _ _ _ _) as [w2 [[]|e]]; cbn [fst] in Hf; [done|].
    destruct (caught_by_worker e); [|done].
    destruct (except_block_run input_file
                (temp_file_of (output_file_of self input_file))
                (output_file_of self input_file) e w2) as (_ & _ & Hf').
    by rewrite Hf'.
Qed.

Lemma transform_file_raise self input_file w e :
  snd (_transform_file self input_file w) = Raise e ->
  caught_by_worker e = false
  /\ exists w1,
       snd (_transform self input_file
              (temp_file_of (output_file_of self input_file))
              (select_fields self) (exclude_fields self) w1) = Raise e.
Proof.
  destruct (os_path_exists w (output_file_of self input_file)) eqn:Hex.
  - by rewrite transform_file_skips.
  - rewrite transform_file_run by done.
    pose proof (try_block_raise_source self input_file
                  (temp_file_of (output_file_of self input_file))
                  (output_file_of self input_file)
                  (mk_world (files w) (dirs w)
                            (stdout w ++ [start_notice input_file])%list))
      as Hsrc.
    destruct (try_block _ _ _ _ _) as [w2 [[]|e0]]; cbn [snd] in *; [done|].
    destruct (caught_by_worker e0) eqn:Hc.
    + destruct (except_block_run input_file
                  (temp_file_of (output_file_of self input_file))
                  (output_file_of self input_file) e0 w2) as (Hr & _).
      by rewrite Hr.
    + intros [= <-]. split; [done|].
      destruct (Hsrc e0 eq_refl) as [->|H]; [done|exact H].
Qed.

(** X17: the worker lets no failure through.  Whatever the callable and
    the file system, an exception leaves [_transform_file] only when the
    callable raised it and it is neither an [Exception] nor a
    [KeyboardInterrupt]; a failure to create the directory, to rename or
    to clean up never does. *)
Theorem worker_raises_only_what_it_cannot_catch
    (self : Transformer) (input_file : string) (w : world) (e : exn) :
  snd (_transform_file self input_file w) = Raise e ->
  is_Exception e = false /\ e <> KeyboardInterrupt
  /\ exists w1,
       snd (_transform self input_file
              (temp_file_of (output_file_of self input_file))
              (select_fields self) (exclude_fields self) w1) = Raise e.
Proof.
  intros H. destruct (transform_file_raise self input_file w e H) as [Hc Hw].
  split; [by destruct e|]. split; [by intros ->|exact Hw].
Qed.

Lemma worker_raises_only_what_it_cannot_catch_witness :
  is_Exception SystemExit = false /\ SystemExit <> KeyboardInterrupt
  /\ exists w1,
       snd (_transform
              (Transformer_init (fun _ _ _ _ => StateE.raise SystemExit)
                                "src" "out" None None 5)
              "src/a/x.gz"
              (temp_file_of
                 (output_file_of
                    (Transformer_init (fun _ _ _ _ => StateE.raise SystemExit)
                                      "src" "out" None None 5)
                    "src/a/x.gz"))
              (select_fields
                 (Transformer_init (fun _ _ _ _ => StateE.raise SystemExit)
                                   "src" "out" None None 5))
              (exclude_fields
                 (Transformer_init (fun _ _ _ _ => StateE.raise SystemExit)
                                   "src" "out" None None 5))
              w1) = Raise SystemExit.
Proof.
  apply (worker_raises_only_what_it_cannot_catch
           (Transformer_init (fun _ _ _ _ => StateE.raise SystemExit)
                             "src" "out" None None 5)
           "src/a/x.gz" good_tree SystemExit).
  reflexivity.
Defined.

(** X18: the worker touches two paths only.  With a callable that
    writes no file but the one it is given, every file other than the
    output file and the temp file of the input is after the call what it
    was before, whether the input is skipped, transformed or fails. *)
Theorem worker_touches_two_paths_only
    (self : Transformer) (input_file : string) (w : world) (p : string) :
  writes_only_output (_transform self) ->
  p <> output_file_of self input_file ->
  p <> temp_file_of (output_file_of self input_file) ->
  files (fst (_transform_file self input_file w)) !! p = files w !! p.
Proof. apply transform_file_frame. Qed.

Lemma worker_touches_two_paths_only_witness :
  files (fst (_transform_file usage_job "src/a/y.gz" mixed_tree)) !! "src/a/y.gz"
  = files mixed_tree !! "src/a/y.gz".
Proof.
  apply (worker_touches_two_paths_only usage_job "src/a/y.gz" mixed_tree
           "src/a/y.gz");
    [apply transform_usage_metrics_writes_only_output
    |discriminate|discriminate].
Defined.

(** ** The job *)

Lemma announced_frame self w :
  files (announced self w) = files w /\ dirs (announced self w) = dirs w.
Proof.
  unfold announced, StateE.bind. rewrite print_run.
  set (w1 := mk_world _ _ _).
  destruct (print_fields_frame "Only extracting these fields:"
              (select_fields self) w1) as (Hr2 & Hf2 & Hd2).
  destruct (print_fields _ (select_fields self) w1) as [w2 r2].
  cbn [fst snd] in Hr2, Hf2, Hd2. subst r2.
  destruct (print_fields_frame "Excluding these fields:"
              (exclude_fields self) w2) as (Hr3 & Hf3 & Hd3).
  destruct (print_fields _ (exclude_fields self) w2) as [w3 r3].
  cbn [fst snd] in *. split; [by rewrite Hf3, Hf2|by rewrite Hd3, Hd2].
Qed.

Lemma transform_run self w :
  transform self w
  = match data_files_of self w with
    | _ :: _ =>
        (pool_map self (data_files_of self w) ;;;
         print (count_notice (List.length (data_files_of self w))))%st
          (mk_world (files (announced self w)) (dirs (announced self w))
                    (stdout (announced self w) ++ [string_repeat "-" 80])%list)
    | [] =>
        print ("No data files found in " ++ quoted (source_dir self) ++ " dir "
               ++ match path_contains self with
                  | Some sub =>
                      if String.eqb sub "" then "" else "matching " ++ quoted sub
                  | None => ""
                  end) (announced self w)
    end.
Proof.
  destruct (announced_frame self w) as [Hf _].
  rewrite <- (data_files_of_ext self w (announced self w) Hf).
  unfold transform, announced, StateE.bind, StateE.get. rewrite print_run.
  set (w1 := mk_world _ _ _).
  destruct (print_fields_frame "Only extracting these fields:"
              (select_fields self) w1) as (Hr2 & _).
  destruct (print_fields _ (select_fields self) w1) as [w2 r2].
  cbn [fst snd] in Hr2. subst r2.
  destruct (print_fields_frame "Excluding these fields:"
              (exclude_fields self) w2) as (Hr3 & _).
  destruct (print_fields _ (exclude_fields self) w2) as [w3 r3].
  cbn [fst snd] in *. subst r3.
  destruct (data_files_of self w3) as [|f fs]; [done|].
  rewrite print_run. unfold StateE.try_except, StateE.raise, count_notice.
  destruct (pool_map self (f :: fs) _) as [w4 [[]|e]]; [done|].
  by destruct e.
Qed.

Lemma pool_map_frame self data_files w q :
  writes_only_output (_transform self) ->
  (forall f, In f data_files ->
     q <> output_file_of self f /\ q <> temp_file_of (output_file_of self f)) ->
  files (fst (pool_map self data_files w)) !! q = files w !! q.
Proof.
  intros Hframe. unfold pool_map. revert w.
  induction data_files as [|f data_files IH]; intros w Hq; [done|].
  cbn [for_each]. unfold StateE.bind at 1.
  destruct (Hq f (or_introl eq_refl)) as [Hq1 Hq2].
  pose proof (transform_file_frame self f w q Hframe Hq1 Hq2) as Hf.
  destruct (_transform_file self f w) as [w1 [[]|e]]; cbn [fst] in *; [|done].
  rewrite IH; [done|]. intros f' Hf'. apply Hq. by right.
Qed.


(** X19: a job touches the output and temp paths of the files it found
    and nothing else.  With a callable that writes no file but the one it
    is given, a path that is neither the output path nor the temp path of
    a data file holds after the job what it held before: a source tree
    apart from the sink tree is left as it was. *)
Theorem job_touches_output_paths_only
    (self : Transformer) (w : world) (p : string) :
  writes_only_output (_transform self) ->
  (forall f, In f (data_files_of self w) ->
     p <> output_file_of self f /\ p <> temp_file_of (output_file_of self f)) ->
  files (fst (transform self w)) !! p = files w !! p.
Proof.
  intros Hframe Hp. rewrite transform_run.
  destruct (announced_frame self w) as [Hf _].
  destruct (data_files_of self w) as [|f fs] eqn:Hfs.
  - rewrite print_run. cbn [fst files]. by rewrite Hf.
  - unfold StateE.bind.
    pose proof (pool_map_frame self (f :: fs)
                  (mk_world (files (announced self w)) (dirs (announced self w))
                     (stdout (announced self w) ++ [string_repeat "-" 80])%list)
                  p Hframe Hp) as Hpool.
    destruct (pool_map self (f :: fs) _) as [w4 [[]|e]]; rewrite ?print_run;
      cbn [fst files] in *; by rewrite Hpool, Hf.
Qed.

Lemma job_touches_output_paths_only_witness :
  files (fst (transform usage_job mixed_tree)) !! "src/a/y.gz"
  = files mixed_tree !! "src/a/y.gz".
Proof.
  apply (job_touches_output_paths_only usage_job mixed_tree "src/a/y.gz").
  - apply transform_usage_metrics_writes_only_output.
  - assert (Hfs : data_files_of usage_job mixed_tree
                  = ["src/a/y.gz"; "src/a/x.gz"]) by (vm_compute; reflexivity).
    intros f. rewrite Hfs. intros [<-|[<-|[]]]; split; discriminate.
Defined.



(** ** The worker: the commit *)

Lemma path_prefixes_In pre rest :
  pre ++ rest <> "" -> In (pre ++ rest) (path_prefixes pre rest).
Proof.
  revert pre. induction rest as [|c r IH]; intros pre Hne.
  - rewrite append_nil_r in *. cbn [path_prefixes].
    apply String.eqb_neq in Hne. rewrite Hne. by left.
  - cbn [path_prefixes]. apply in_or_app. right.
    replace (pre ++ String c r) with ((pre ++ String c "") ++ r)
      by (by rewrite append_assoc, append_cons, append_nil_l).
    apply IH. rewrite append_assoc, append_cons, append_nil_l.
    intros H. apply (f_equal String.length) in H.
    rewrite length_append in H. simpl in H. lia.
Qed.

Lemma path_prefixes_length pre rest q :
  In q (path_prefixes pre rest) ->
  (String.length q <= String.length pre + String.length rest)%nat.
Proof.
  revert pre. induction rest as [|c r IH]; intros pre.
  - cbn [path_prefixes]. destruct (String.eqb pre ""); [done|].
    intros [<-|[]]. lia.
  - cbn [path_prefixes]. intros H. apply in_app_or in H as [H|H].
    + destruct (_ && _); [|done]. destruct H as [<-|[]]. lia.
    + apply IH in H. rewrite length_append in H. simpl in *. lia.
Qed.

Lemma rstrip_slash_length s :
  (String.length (rstrip_slash s) <= String.length s)%nat.
Proof.
  induction s as [|c s IH]; [done|]. cbn [rstrip_slash].
  destruct (rstrip_slash s).
  - destruct (Ascii.eqb c "/"); simpl; lia.
  - simpl in *. lia.
Qed.

Lemma dirname_basename_length p :
  (String.length (os_path_dirname p) + String.length (os_path_basename p)
   <= String.length p)%nat.
Proof.
  destruct (split_last_slash_spec p) as (Hp & _).
  unfold os_path_dirname, os_path_basename.
  apply (f_equal String.length) in Hp. rewrite length_append in Hp.
  destruct (_ && _); [|lia].
  pose proof (rstrip_slash_length (fst (split_last_slash p))). lia.
Qed.

Lemma not_in_parent_prefixes p :
  os_path_basename p <> "" ->
  ~ In p (path_prefixes "" (os_path_dirname p)).
Proof.
  intros Hb Hin. apply path_prefixes_length in Hin.
  pose proof (dirname_basename_length p).
  destruct (os_path_basename p); [done|]. simpl in *. lia.
Qed.

(** X21: the commit.  For a job on [transform_usage_metrics], when the
    output path names a file that does not exist, its directory can be
    made, the temp path is not a directory, the input file is not the
    temp file and every line of the input decodes and transforms, the
    worker returns with the transformed records at the output path and no
    file at the temp path, a stale temp file of an earlier run included;
    the directories of the output path exist, the notice of the start is
    the one line printed, and no other file has changed. *)
Theorem worker_commits_transformed_file
    (US_Pacific : Z -> Z) (self : Transformer) (input_file : string)
    (lines : list line) (w : world) :
  _transform self = transform_usage_metrics US_Pacific ->
  os_path_exists w (output_file_of self input_file) = false ->
  os_path_basename (output_file_of self input_file) <> "" ->
  snd (os_makedirs (os_path_dirname (output_file_of self input_file)) w)
  = Ok tt ->
  is_dir w (temp_file_of (output_file_of self input_file)) = false ->
  input_file <> temp_file_of (output_file_of self input_file) ->
  files w !! input_file = Some lines ->
  snd (transform_lines US_Pacific (select_fields self) (exclude_fields self)
         lines) = Ok tt ->
  _transform_file self input_file w
  = (mk_world
       (<[output_file_of self input_file :=
            fst (transform_lines US_Pacific (select_fields self)
                   (exclude_fields self) lines)]>
          (delete (temp_file_of (output_file_of self input_file)) (files w)))
       (dirs w
        ∪ list_to_set
            (path_prefixes "" (os_path_dirname (output_file_of self input_file))))
       (stdout w ++ [start_notice input_file])%list,
     Ok tt).
Proof.
  intros Hcall Hex Hbase Hmk Htemp Hne Hin Hok.
  set (output_file := output_file_of self input_file) in *.
  set (temp_file := temp_file_of output_file) in *.
  destruct (temp_file_parts output_file) as [Hdir Hbt]. fold temp_file in Hdir, Hbt.
  assert (Hout : is_dir w output_file = false).
  { unfold os_path_exists in Hex. by apply orb_false_elim in Hex as [_ ?]. }
  rewrite transform_file_run by done. fold output_file temp_file.
  unfold try_block, StateE.bind. rewrite Hcall, Hdir.
  unfold os_makedirs in *. cbn [files dirs stdout] in *.
  destruct (String.eqb (os_path_dirname output_file) "") eqn:Hnz; [done|].
  cbn [orb] in *.
  change (is_file (mk_world (files w) (dirs w)
                    (stdout w ++ [start_notice input_file])%list))
    with (is_file w).
  destruct (existsb (is_file w) _); [done|].
  set (needed := path_prefixes "" (os_path_dirname output_file)).
  set (w1 := mk_world (files w) (dirs w ∪ list_to_set needed) _).
  assert (Hparent : is_dir w1 (os_path_dirname output_file) = true).
  { unfold is_dir, w1. cbn [dirs]. apply bool_decide_eq_true.
    apply elem_of_union_r, elem_of_list_to_set, list_elem_of_In.
    apply (path_prefixes_In "" (os_path_dirname output_file)).
    rewrite append_nil_l. by apply String.eqb_neq. }
  assert (Hnot : forall p, is_dir w p = false -> ~ In p needed ->
                           is_dir w1 p = false).
  { intros p Hp Hn. unfold is_dir, w1 in *. cbn [dirs].
    apply bool_decide_eq_false. apply bool_decide_eq_false in Hp.
    rewrite elem_of_union, elem_of_list_to_set, list_elem_of_In. tauto. }
  assert (Htemp1 : is_dir w1 temp_file = false).
  { apply Hnot; [done|]. unfold needed. rewrite <- Hdir.
    apply not_in_parent_prefixes. rewrite Hbt.
    by rewrite append_cons. }
  assert (Hout1 : is_dir w1 output_file = false).
  { apply Hnot; [done|]. by apply not_in_parent_prefixes. }
  rewrite (transform_usage_metrics_run _ _ _ _ _ lines); try done.
  2: { rewrite Hdir, Hparent. by rewrite orb_true_r. }
  rewrite Hok. unfold os_rename. cbn [set_files files dirs stdout].
  rewrite lookup_insert_eq.
  change (is_dir (set_files _ w1) output_file) with (is_dir w1 output_file).
  rewrite Hout1. unfold set_files, w1. cbn [files dirs stdout].
  by rewrite delete_insert_eq.
Qed.

Lemma worker_commits_transformed_file_witness :
  _transform_file usage_job "src/a/x.gz" good_tree
  = (mk_world
       (<[output_file_of usage_job "src/a/x.gz" :=
            fst (transform_lines PST (select_fields usage_job)
                   (exclude_fields usage_job) [Some (VDict scenario_record)])]>
          (delete (temp_file_of (output_file_of usage_job "src/a/x.gz"))
                  (files good_tree)))
       (dirs good_tree
        ∪ list_to_set
            (path_prefixes ""
               (os_path_dirname (output_file_of usage_job "src/a/x.gz"))))
       (stdout good_tree ++ [start_notice "src/a/x.gz"])%list,
     Ok tt).
Proof.
  apply (worker_commits_transformed_file PST usage_job "src/a/x.gz"
           [Some (VDict scenario_record)] good_tree);
    first [reflexivity | discriminate].
Defined.

(** X22: an output path without a directory part is never written.
    [os.makedirs] rejects the empty directory name, so the callable is
    not called: whatever it is, the worker prints the notice of the
    start, removes a stale temp file and returns, with no output. *)
Theorem output_without_directory_is_dropped
    (self : Transformer) (input_file : string) (w : world) :
  os_path_exists w (output_file_of self input_file) = false ->
  os_path_dirname (output_file_of self input_file) = "" ->
  _transform_file self input_file w
  = (mk_world
       (delete (temp_file_of (output_file_of self input_file)) (files w))
       (dirs w) (stdout w ++ [start_notice input_file])%list,
     Ok tt).
Proof.
  intros Hex Hdir.
  set (output_file := output_file_of self input_file) in *.
  set (temp_file := temp_file_of output_file) in *.
  destruct (temp_file_parts output_file) as [Hdt _]. fold temp_file in Hdt.
  pose proof (exists_false_no_file _ _ Hex) as Hout.
  rewrite transform_file_run by done. fold output_file temp_file.
  unfold try_block, StateE.bind at 1. rewrite Hdt, Hdir.
  unfold os_makedirs at 1. cbn [String.eqb orb caught_by_worker is_Exception].
  unfold except_block, StateE.bind at 1, StateE.ret at 1.
  unfold StateE.try_except, StateE.bind, os_unlink, is_file.
  cbn [files dirs stdout].
  destruct (files w !! temp_file) as [c|] eqn:Ht.
  - rewrite bool_decide_true by by eexists.
    cbn [set_files files dirs stdout].
    rewrite lookup_delete_ne by apply temp_file_ne.
    fold output_file. rewrite Hout.
    rewrite bool_decide_false by by intros [? ?]. done.
  - rewrite bool_decide_false by by intros [? ?].
    cbn [is_Exception StateE.ret]. by rewrite delete_id.
Qed.

Lemma output_without_directory_is_dropped_witness :
  _transform_file
    (Transformer_init (transform_usage_metrics PST) "src" "" None None 5)
    "src/x.gz"
    (mk_world {[ "src/x.gz" := [Some (VDict scenario_record)] ]} {[ "src" ]} [])
  = (mk_world
       (delete
          (temp_file_of
             (output_file_of
                (Transformer_init (transform_usage_metrics PST)
                                  "src" "" None None 5)
                "src/x.gz"))
          {[ "src/x.gz" := [Some (VDict scenario_record)] ]})
       {[ "src" ]} [start_notice "src/x.gz"],
     Ok tt).
Proof.
  refine (output_without_directory_is_dropped
            (Transformer_init (transform_usage_metrics PST) "src" "" None None 5)
            "src/x.gz"
            (mk_world {[ "src/x.gz" := [Some (VDict scenario_record)] ]}
                      {[ "src" ]} []) _ _);
    reflexivity.
Defined.

(** ** [Transformer.__init__] and the filter *)

(** X23: beside plain entries the prefixed entries of a field spec are
    inert.  When the spec has an entry without the leading ["-"], and no
    prefixed entry names a path that is also a plain entry, the records
    are filtered as if the prefixed entries were not there: the selection
    drops every path they name. *)
Theorem prefixed_entries_are_inert_beside_plain_ones
    (transform : string -> string -> fields -> fields -> stateE world unit)
    (source_dir sink_dir : string) (path_contains : option string)
    (field_spec : gset string) (parallel_processes : Z)
    (record : dict) (_parent_key : option string) :
  (exists f, f ∈ field_spec /\ startswith f "-" = false) ->
  (forall e, e ∈ field_spec -> startswith e "-" = true ->
             lstrip_minus e ∉ field_spec) ->
  _clean_bigquery_keys record
    (select_fields (Transformer_init transform source_dir sink_dir
                      path_contains (Some field_spec) parallel_processes))
    (exclude_fields (Transformer_init transform source_dir sink_dir
                       path_contains (Some field_spec) parallel_processes))
    _parent_key
  = _clean_bigquery_keys record
      (select_fields (Transformer_init transform source_dir sink_dir
                        path_contains (Some field_spec) parallel_processes))
      None _parent_key.
Proof.
  intros (f & Hf & Hplain) Hinert.
  assert (Ht : truthy_fields (Some field_spec) = true).
  { simpl. apply negb_true_iff, bool_decide_eq_false. set_solver. }
  unfold Transformer_init. rewrite Ht.
  cbn [select_fields exclude_fields default from_option id].
  set (dashed := filter (fun f => startswith f "-" = true) field_spec).
  cut (clean_value (Some (field_spec ∖ dashed))
         (Some (set_map lstrip_minus dashed)) _parent_key (VDict record)
       = clean_value (Some (field_spec ∖ dashed)) None _parent_key
           (VDict record)).
  { rewrite !clean_value_dict. by intros [= ->]. }
  apply clean_value_agree. intros full _. unfold skipped.
  assert (Hsel : truthy_fields (Some (field_spec ∖ dashed)) = true).
  { simpl. apply negb_true_iff, bool_decide_eq_false. intros Hempty.
    apply (not_elem_of_empty (C := gset string) f). rewrite <- Hempty.
    apply elem_of_difference. split; [done|].
    unfold dashed. rewrite elem_of_filter. intros [? _]. congruence. }
  rewrite Hsel. cbn [andb truthy_fields in_fields orb].
  rewrite orb_false_r.
  destruct (bool_decide (full ∈ (set_map lstrip_minus dashed : gset string)))
    eqn:Hex; [|by rewrite andb_false_r, orb_false_r].
  apply bool_decide_eq_true in Hex.
  apply elem_of_map in Hex as (e & -> & He).
  unfold dashed in He. apply elem_of_filter in He as [Hdash He].
  rewrite bool_decide_false; [done|].
  intros Hin. apply elem_of_difference in Hin as [Hin _].
  by apply (Hinert e He Hdash).
Qed.

Lemma prefixed_entries_are_inert_beside_plain_ones_witness :
  _clean_bigquery_keys [("x", VDict [("y", VInt 1); ("z", VInt 2)])]
    (select_fields (Transformer_init (transform_usage_metrics PST) "src" "out"
                      None (Some {[ "x"; "-x.y" ]}) 5))
    (exclude_fields (Transformer_init (transform_usage_metrics PST) "src" "out"
                       None (Some {[ "x"; "-x.y" ]}) 5))
    None
  = _clean_bigquery_keys [("x", VDict [("y", VInt 1); ("z", VInt 2)])]
      (select_fields (Transformer_init (transform_usage_metrics PST) "src" "out"
                        None (Some {[ "x"; "-x.y" ]}) 5))
      None None.
Proof.
  apply (prefixed_entries_are_inert_beside_plain_ones
           (transform_usage_metrics PST) "src" "out" None {[ "x"; "-x.y" ]} 5
           [("x", VDict [("y", VInt 1); ("z", VInt 2)])] None).
  - exists "x". split; [set_solver|reflexivity].
  - intros e He Hdash.
    apply elem_of_union in He as [He|He]; apply elem_of_singleton in He;
      subst e; [discriminate|].
    apply (bool_decide_unpack _). vm_compute. exact I.
Defined.

Lemma truthy_and_in_fields x fs :
  truthy_fields fs && in_fields x fs = in_fields x fs.
Proof.
  destruct fs as [s|]; [|done]. simpl.
  destruct (bool_decide (x ∈ s)) eqn:Hx; [|by rewrite andb_false_r].
  apply bool_decide_eq_true in Hx. rewrite andb_true_r.
  apply negb_true_iff, bool_decide_eq_false. intros ->.
  by apply not_elem_of_empty in Hx.
Qed.

(** X24: a field spec of prefixed entries only is an exclusion list.
    When every entry of the spec starts with ["-"], the job filters the
    records with no selection at all and with the stripped entries as the
    paths to drop. *)
Theorem prefixed_spec_is_an_exclusion_list
    (transform : string -> string -> fields -> fields -> stateE world unit)
    (source_dir sink_dir : string) (path_contains : option string)
    (field_spec : gset string) (parallel_processes : Z)
    (record : dict) (_parent_key : option string) :
  (forall e, e ∈ field_spec -> startswith e "-" = true) ->
  _clean_bigquery_keys record
    (select_fields (Transformer_init transform source_dir sink_dir
                      path_contains (Some field_spec) parallel_processes))
    (exclude_fields (Transformer_init transform source_dir sink_dir
                       path_contains (Some field_spec) parallel_processes))
    _parent_key
  = _clean_bigquery_keys record None
      (Some (set_map lstrip_minus field_spec)) _parent_key.
Proof.
  intros Hall.
  set (self := Transformer_init _ _ _ _ _ _).
  cut (clean_value (select_fields self) (exclude_fields self) _parent_key
         (VDict record)
       = clean_value None (Some (set_map lstrip_minus field_spec)) _parent_key
           (VDict record)).
  { rewrite !clean_value_dict. by intros [= ->]. }
  apply clean_value_agree. intros full _. unfold skipped.
  rewrite !truthy_and_in_fields. cbn [truthy_fields andb orb].
  unfold self, Transformer_init.
  destruct (truthy_fields (Some field_spec)) eqn:Ht;
    cbn [select_fields exclude_fields default from_option id].
  - set (dashed := filter (fun f => startswith f "-" = true) field_spec).
    assert (Hd : forall e, e ∈ dashed <-> e ∈ field_spec).
    { intros e. unfold dashed. rewrite elem_of_filter.
      split; [by intros [_ ?]|]. intros He. split; [by apply Hall|done]. }
    assert (Hsel : truthy_fields (Some (field_spec ∖ dashed)) = false).
    { simpl. apply negb_false_iff, bool_decide_eq_true.
      apply set_eq. intros e. rewrite elem_of_difference, Hd.
      split; [tauto|]. intros He. by apply not_elem_of_empty in He. }
    rewrite Hsel. cbn [andb orb in_fields].
    apply bool_decide_ext. rewrite !elem_of_map.
    split; intros (e & -> & He); exists e; (split; [done|]); by apply Hd.
  - cbn [truthy_fields in_fields andb orb] in *.
    apply negb_false_iff, bool_decide_eq_true in Ht. subst field_spec.
    symmetry. apply bool_decide_eq_false. rewrite elem_of_map.
    intros (e & _ & He). by apply not_elem_of_empty in He.
Qed.

Lemma prefixed_spec_is_an_exclusion_list_witness :
  _clean_bigquery_keys [("x", VDict [("y", VInt 1); ("z", VInt 2)])]
    (select_fields (Transformer_init (transform_usage_metrics PST) "src" "out"
                      None (Some {[ "-x.y" ]}) 5))
    (exclude_fields (Transformer_init (transform_usage_metrics PST) "src" "out"
                       None (Some {[ "-x.y" ]}) 5))
    None
  = _clean_bigquery_keys [("x", VDict [("y", VInt 1); ("z", VInt 2)])] None
      (Some (set_map lstrip_minus ({[ "-x.y" ]} : gset string))) None.
Proof.
  apply (prefixed_spec_is_an_exclusion_list
           (transform_usage_metrics PST) "src" "out" None {[ "-x.y" ]} 5
           [("x", VDict [("y", VInt 1); ("z", VInt 2)])] None).
  intros e He. apply elem_of_singleton in He. by subst e.
Defined.

(** ** The record transform: the Pacific date *)

Lemma fromtimestamp_Ok tz ts dt :
  fromtimestamp tz ts = Ok dt ->
  dt = datetime_of_seconds (ts + tz ts) /\ year_in_range dt = true.
Proof.
  unfold fromtimestamp.
  destruct (year_in_range (datetime_of_seconds ts)); [|done]. cbn [negb].
  destruct (year_in_range (datetime_of_seconds (ts + tz ts))) eqn:Hy; [|done].
  cbn [negb]. intros [= <-]. by rewrite Hy.
Qed.

Lemma datetime_of_seconds_time secs :
  0 <= hour (datetime_of_seconds secs) < 24
  /\ 0 <= minute (datetime_of_seconds secs) < 60
  /\ second (datetime_of_seconds secs) = secs mod 60.
Proof.
  unfold datetime_of_seconds.
  destruct (civil_from_days (secs / 86400)) as [[y m] d].
  cbn [hour minute second].
  pose proof (Z.mod_pos_bound secs 86400 ltac:(lia)) as Hsod.
  pose proof (Z.mod_pos_bound (secs mod 86400) 3600 ltac:(lia)) as Hm.
  split; [|split].
  - split; [apply Z.div_pos; lia|apply Z.div_lt_upper_bound; lia].
  - split; [apply Z.div_pos; lia|apply Z.div_lt_upper_bound; lia].
  - apply Z.mod_mod_divide. exists 1440. lia.
Qed.

(** X25: the two Pacific fields describe one minute.  When the zone's
    offsets are whole minutes and the call returns, the caller's record
    holds a date in [date_pt] and, in [datetime_pt], that same date
    followed by an hour below 24, a minute below 60 and the seconds
    [00]. *)
Theorem pacific_fields_describe_one_minute
    (US_Pacific : Z -> Z) (select_fields exclude_fields : fields)
    (record out : dict) :
  (forall t, US_Pacific t mod 60 = 0) ->
  snd (transform_usage_metrics_record US_Pacific select_fields exclude_fields
         record) = Ok out ->
  exists date h m,
    Dict.get (fst (transform_usage_metrics_record US_Pacific select_fields
                     exclude_fields record)) "date_pt"
    = Some (VStr date)
    /\ Dict.get (fst (transform_usage_metrics_record US_Pacific select_fields
                        exclude_fields record)) "datetime_pt"
       = Some (VStr (date ++ " " ++ pad2 h ++ ":" ++ pad2 m ++ ":00"))
    /\ 0 <= h < 24 /\ 0 <= m < 60.
Proof.
  intros Htz Hrun.
  apply transform_record_success in Hrun
    as (t & ts & metric & d & delta & dt & _ & Hts & _ & _ & _ & Hdt & -> & _).
  apply round_to_unit_multiple in Hts.
  apply fromtimestamp_Ok in Hdt as [-> _].
  destruct (datetime_of_seconds_time (ts + US_Pacific ts)) as (Hh & Hm & Hs).
  assert (Hsec : second (datetime_of_seconds (ts + US_Pacific ts)) = 0).
  { rewrite Hs, Z.add_mod, Hts, Htz by lia. reflexivity. }
  exists (strftime_date (datetime_of_seconds (ts + US_Pacific ts))),
         (hour (datetime_of_seconds (ts + US_Pacific ts))),
         (minute (datetime_of_seconds (ts + US_Pacific ts))).
  split; [unfold mutated; by rewrite get_set_eq|].
  split; [|done].
  unfold mutated. rewrite get_set_ne by done. rewrite get_set_eq.
  unfold strftime_datetime. by rewrite Hsec.
Qed.

Lemma pacific_fields_describe_one_minute_witness :
  exists date h m,
    Dict.get (fst (transform_usage_metrics_record PST None None
                     scenario_record)) "date_pt"
    = Some (VStr date)
    /\ Dict.get (fst (transform_usage_metrics_record PST None None
                        scenario_record)) "datetime_pt"
       = Some (VStr (date ++ " " ++ pad2 h ++ ":" ++ pad2 m ++ ":00"))
    /\ 0 <= h < 24 /\ 0 <= m < 60.
Proof.
  eapply (pacific_fields_describe_one_minute PST None None scenario_record).
  - intros t. reflexivity.
  - reflexivity.
Defined.
